(** * hclwrite-example: a Go program that emits two Terraform files

    The program (main.go) builds two HCL documents with the hclwrite
    library and writes them to [terraform/locals.tf] and
    [terraform/main.tf].  This development embeds the program in Rocq:

    - the process environment (environment variables, the umask, the
      math/rand generator, the file system with its failure modes, the
      table of open files and a log of the system calls made) is a record
      [World];
    - Go statements that touch the world live in a state-and-panic monad
      [M]; a Go [panic] is the result [Panic];
    - the packages the program imports (os, fmt, math/rand, cty, hcl,
      hclwrite) are modelled in modules of the same names, as far as the
      program uses them, and so is the Unicode normalization that cty
      applies to every string it is given;
    - the four functions of main.go are transcribed statement by statement
      in [Section Program], over the serializer of hclwrite, which the
      program uses as a black box. *)

From Stdlib Require Import ZArith NArith Strings.Byte Lia.
From stdpp Require Import base option list strings pretty gmap.

Local Open Scope Z_scope.
Local Open Scope string_scope.

(** ** Go integers *)

(** An [int] is 64 bits wide: arithmetic wraps around. *)
Definition int_wrap (z : Z) : Z := (z + 2 ^ 63) mod 2 ^ 64 - 2 ^ 63.
Definition int_add (a b : Z) : Z := int_wrap (a + b).

(** ** The world a Go process runs in *)

(** Error numbers behind Go's [*PathError] values. *)
Inductive Errno :=
| ENOENT | EEXIST | EACCES | ENOTDIR | EISDIR | ENOSPC | EIO | EBADF | EINVAL.

(** A Go [error] value: [None] is [nil]. *)
Abbreviation error := (option Errno).

(** What a path names: a directory with its permission bits, or a regular
    file with its content. *)
Inductive Node :=
| Dir (perm : N)
| RegularFile (content : list byte).

(** Failures the operating system may report for reasons the model does
    not track (permissions, quotas, device errors), per call and path.  A
    failing write also says how many bytes went through before it. *)
Record Faults := {
  stat_fault : string → error;
  mkdir_fault : string → error;
  create_fault : string → error;
  write_fault : string → option (nat * Errno);
}.

(** An entry of the table of files the process has opened. *)
Record OpenFile := {
  of_name : string;
  of_offset : nat;
  of_closed : bool;
}.

(** The system calls a process makes, with what they returned. *)
Inductive Event :=
| EvStat (name : string) (err : error)
| EvMkdir (name : string) (perm : N) (err : error)
| EvCreate (name : string) (err : error)
| EvWrite (name : string) (buf : list byte) (n : nat) (err : error)
| EvClose (name : string).

Record World := {
  environ : gmap string string;
  umask : N;
  rand_src : nat → Z;
  rand_pos : nat;
  nodes : gmap string Node;
  faults : Faults;
  fds : list OpenFile;
  syscalls : list Event;
}.

Definition log (ev : Event) (w : World) : World :=
  {| environ := environ w; umask := umask w; rand_src := rand_src w;
     rand_pos := rand_pos w;
     nodes := nodes w; faults := faults w; fds := fds w;
     syscalls := syscalls w ++ [ev] |}.

Definition with_nodes (ns : gmap string Node) (w : World) : World :=
  {| environ := environ w; umask := umask w; rand_src := rand_src w;
     rand_pos := rand_pos w;
     nodes := ns; faults := faults w; fds := fds w;
     syscalls := syscalls w |}.

Definition with_fds (fs : list OpenFile) (w : World) : World :=
  {| environ := environ w; umask := umask w; rand_src := rand_src w;
     rand_pos := rand_pos w;
     nodes := nodes w; faults := faults w; fds := fs;
     syscalls := syscalls w |}.

Definition with_rand_pos (p : nat) (w : World) : World :=
  {| environ := environ w; umask := umask w; rand_src := rand_src w;
     rand_pos := p;
     nodes := nodes w; faults := faults w; fds := fds w;
     syscalls := syscalls w |}.

(** ** The monad of Go statements *)

(** A statement returns a value in a new world, panics with an error, or
    (for a loop run with too little fuel) does not finish. *)
Inductive Result (A : Type) :=
| Ok (a : A) (w : World)
| Panic (e : Errno) (w : World)
| OutOfFuel.
Arguments Ok {A} a w.
Arguments Panic {A} e w.
Arguments OutOfFuel {A}.

Definition M (A : Type) : Type := World → Result A.

Definition ret {A} (a : A) : M A := fun w => Ok a w.

Definition bind {A B} (c : M A) (k : A → M B) : M B :=
  fun w =>
    match c w with
    | Ok a w' => k a w'
    | Panic e w' => Panic e w'
    | OutOfFuel => OutOfFuel
    end.

Definition panic {A} (e : Errno) : M A := fun w => Panic e w.

Notation "'let*' x ':=' c 'in' k" := (bind c (fun x => k))
  (at level 10, x name, c at level 100, k at level 200, only parsing).
Notation "'let*' ' p ':=' c 'in' k" :=
  (bind c (fun x => match x with p => k end))
  (at level 10, p pattern, c at level 100, k at level 200, only parsing).

(** Go's [for cond { body }] over the loop variables [s]. *)
Fixpoint while {S} (fuel : nat) (cond : S → bool) (body : S → M S) (s : S)
  : M S :=
  match fuel with
  | O => fun _ => OutOfFuel
  | Datatypes.S fuel' =>
      if cond s then let* s' := body s in while fuel' cond body s'
      else ret s
  end.

(** ** Package os *)

Module os.

(** [os.ModeDir] is bit 31 of a [FileMode]; [Perm] keeps the nine
    permission bits, which is what reaches the mkdir system call. *)
Definition ModeDir : N := 2147483648%N.
Definition Perm (m : N) : N := N.land m 511%N.

(** The mode of a new entry: the permission bits asked for, less the
    bits set in the umask of the process. *)
Definition new_mode (w : World) (perm : N) : N :=
  N.ldiff (Perm perm) (umask w).

(** [os.IsNotExist]: the error says that the file does not exist. *)
Definition IsNotExist (err : error) : bool :=
  match err with
  | Some ENOENT => true
  | _ => false
  end.

(** The part of a path before its last slash, if it has a slash. *)
Fixpoint before_last_slash (s : string) : option string :=
  match s with
  | EmptyString => None
  | String c s' =>
      match before_last_slash s' with
      | Some d => Some (String c d)
      | None => if Ascii.eqb c (Ascii.ascii_of_nat 47) then Some EmptyString else None
      end
  end.

Definition dirname (s : string) : string :=
  match before_last_slash s with
  | Some EmptyString => "/"
  | Some d => d
  | None => "."
  end.

(** The working directory and the root are always there; the empty path
    names nothing. *)
Definition lookup_node (w : World) (name : string) : option Node :=
  if bool_decide (name = "." ∨ name = "/") then Some (Dir 493%N)
  else if bool_decide (name = "") then None
  else nodes w !! name.

(** A new entry needs a name, and a parent that is a directory. *)
Definition parent_check (w : World) (name : string) : error :=
  if bool_decide (name = "") then Some ENOENT
  else
    match lookup_node w (dirname name) with
    | Some (Dir _) => None
    | Some (RegularFile _) => Some ENOTDIR
    | None => Some ENOENT
    end.

Definition stat_result (w : World) (name : string) : option Node * error :=
  match stat_fault (faults w) name with
  | Some e => (None, Some e)
  | None =>
      match lookup_node w name with
      | Some n => (Some n, None)
      | None => (None, Some ENOENT)
      end
  end.

(** [os.Stat(name)] returns [(FileInfo, error)]. *)
Definition Stat (name : string) : M (option Node * error) :=
  fun w =>
    let r := stat_result w name in
    Ok r (log (EvStat name r.2) w).

Definition mkdir_result (w : World) (name : string) : error :=
  match mkdir_fault (faults w) name with
  | Some e => Some e
  | None =>
      match lookup_node w name with
      | Some _ => Some EEXIST
      | None => parent_check w name
      end
  end.

(** [os.Mkdir(name, perm)] returns an [error]; it never panics. *)
Definition Mkdir (name : string) (perm : N) : M error :=
  fun w =>
    match mkdir_result w name with
    | Some e => Ok (Some e) (log (EvMkdir name perm (Some e)) w)
    | None =>
        Ok None
           (log (EvMkdir name perm None)
                (with_nodes (<[name := Dir (new_mode w perm)]> (nodes w)) w))
    end.

Definition create_result (w : World) (name : string) : error :=
  match create_fault (faults w) name with
  | Some e => Some e
  | None =>
      match lookup_node w name with
      | Some (Dir _) => Some EISDIR
      | Some (RegularFile _) => None
      | None => parent_check w name
      end
  end.

(** A [*os.File] is a pointer: [None] is [nil], [Some fd] points to entry
    [fd] of the table of open files. *)
Abbreviation File := (option nat).

(** [os.Create(name)] is [OpenFile(name, O_RDWR|O_CREATE|O_TRUNC, 0666)]:
    the file is created empty or truncated to empty, and the new handle
    stands at offset 0.  It returns a pair of a file pointer and an error. *)
Definition Create (name : string) : M (File * error) :=
  fun w =>
    match create_result w name with
    | Some e => Ok (None, Some e) (log (EvCreate name (Some e)) w)
    | None =>
        Ok (Some (length (fds w)), None)
           (log (EvCreate name None)
                (with_fds (fds w ++ [{| of_name := name; of_offset := 0%nat;
                                        of_closed := false |}])
                          (with_nodes (<[name := RegularFile []]> (nodes w))
                                      w)))
    end.

(** Writing [data] at offset [off] of a file holding [old]; a gap past
    the end of the file reads as zero bytes. *)
Definition write_at (off : nat) (data old : list byte) : list byte :=
  take off (old ++ replicate (off - length old)%nat x00)
    ++ data ++ drop (off + length data)%nat old.

(** How many bytes of [b] go through, and the error reported. *)
Definition write_result (w : World) (name : string) (b : list byte)
  : nat * error :=
  match write_fault (faults w) name with
  | Some (k, e) => (Nat.min k (length b), Some e)
  | None => (length b, None)
  end.

(** [File.Write(b)] returns [(n, error)]; it never panics. *)
Definition File_Write (f : File) (b : list byte) : M (nat * error) :=
  fun w =>
    match f with
    | None => Ok (0%nat, Some EINVAL) w
    | Some fd =>
        match fds w !! fd with
        | None => Ok (0%nat, Some EBADF) w
        | Some o =>
            if of_closed o then Ok (0%nat, Some EBADF) w
            else
              let r := write_result w (of_name o) b in
              let data := take r.1 b in
              let ns :=
                match nodes w !! of_name o with
                | Some (RegularFile c) =>
                    <[of_name o := RegularFile (write_at (of_offset o) data c)]>
                      (nodes w)
                | _ => nodes w
                end in
              let o' := {| of_name := of_name o;
                           of_offset := (of_offset o + r.1)%nat;
                           of_closed := false |} in
              Ok r (log (EvWrite (of_name o) b r.1 r.2)
                        (with_fds (<[fd := o']> (fds w)) (with_nodes ns w)))
        end
    end.

(** [File.Close()]. *)
Definition File_Close (f : File) : M error :=
  fun w =>
    match f with
    | None => Ok (Some EINVAL) w
    | Some fd =>
        match fds w !! fd with
        | None => Ok (Some EBADF) w
        | Some o =>
            if of_closed o then Ok (Some EBADF) w
            else
              let o' := {| of_name := of_name o; of_offset := of_offset o;
                           of_closed := true |} in
              Ok None (log (EvClose (of_name o))
                           (with_fds (<[fd := o']> (fds w)) w))
        end
    end.

(** [os.Getenv(key)]: the value, or the empty string when unset. *)
Definition Getenv (key : string) : M string :=
  fun w => Ok (default "" (environ w !! key)) w.

End os.

(** ** Packages math/rand and fmt *)

Module rand.

(** [rand.Int()]: the next non-negative 63-bit integer of the generator. *)
Definition Int : M Z :=
  fun w =>
    Ok (rand_src w (rand_pos w) mod 2 ^ 63)
       (with_rand_pos (S (rand_pos w)) w).

End rand.

Module fmt.

(** [fmt.Sprint] of one operand, at the two types the program uses:
    an [int] prints in decimal, a [string] prints as itself. *)
Class Formatter (A : Type) := format : A → string.
#[global] Instance Formatter_int : Formatter Z := fun x => pretty x.
#[global] Instance Formatter_string : Formatter string := fun s => s.

Definition Sprint {A} `{Formatter A} (a : A) : string := format a.

End fmt.

(** ** Packages unicode/utf8 and x/text/unicode/norm *)

Module utf8.

Local Open Scope N_scope.

(** A piece of a Go string: a code point that is encoded well in it, or a
    byte that belongs to no well-formed sequence. *)
Inductive Piece :=
| Rune (r : N)
| Stray (b : N).

Definition between (lo hi b : N) : bool := (lo <=? b) && (b <=? hi).
Definition continuation (b : N) : bool := between 128 191 b.

(** The code point at the head of [bs] and the number of bytes it takes.
    Encodings longer than needed, of surrogates or of values past
    U+10FFFF are not well formed. *)
Definition DecodeRune (bs : list N) : option (N * nat) :=
  match bs with
  | [] => None
  | b0 :: rest =>
      if b0 <? 128 then Some (b0, 1%nat)
      else if between 194 223 b0 then
        match rest with
        | b1 :: _ =>
            if continuation b1
            then Some ((b0 - 192) * 64 + (b1 - 128), 2%nat)
            else None
        | _ => None
        end
      else if between 224 239 b0 then
        match rest with
        | b1 :: b2 :: _ =>
            if between (if b0 =? 224 then 160 else 128)
                 (if b0 =? 237 then 159 else 191) b1
               && continuation b2
            then Some ((b0 - 224) * 4096 + (b1 - 128) * 64 + (b2 - 128),
                       3%nat)
            else None
        | _ => None
        end
      else if between 240 244 b0 then
        match rest with
        | b1 :: b2 :: b3 :: _ =>
            if between (if b0 =? 240 then 144 else 128)
                 (if b0 =? 244 then 143 else 191) b1
               && continuation b2 && continuation b3
            then Some ((b0 - 240) * 262144 + (b1 - 128) * 4096
                       + (b2 - 128) * 64 + (b3 - 128), 4%nat)
            else None
        | _ => None
        end
      else None
  end.

(** The pieces of a byte sequence; [skip] bytes at its head belong to the
    code point before. *)
Fixpoint decode_from (skip : nat) (bs : list N) : list Piece :=
  match bs with
  | [] => []
  | b :: rest =>
      match skip with
      | S k => decode_from k rest
      | O =>
          match DecodeRune bs with
          | Some (r, n) => Rune r :: decode_from (n - 1) rest
          | None => Stray b :: decode_from 0 rest
          end
      end
  end.

Definition decode (s : string) : list Piece :=
  decode_from 0 (Ascii.N_of_ascii <$> String.list_ascii_of_string s).

Definition EncodeRune (r : N) : list N :=
  if r <? 128 then [r]
  else if r <? 2048 then [192 + r / 64; 128 + r mod 64]
  else if r <? 65536 then
    [224 + r / 4096; 128 + (r / 64) mod 64; 128 + r mod 64]
  else
    [240 + r / 262144; 128 + (r / 4096) mod 64; 128 + (r / 64) mod 64;
     128 + r mod 64].

Definition encode (ps : list Piece) : string :=
  String.string_of_list_ascii
    (Ascii.ascii_of_N
       <$> flat_map (fun p => match p with
                              | Rune r => EncodeRune r
                              | Stray b => [b]
                              end) ps).

End utf8.

Module norm.

Import utf8.
Local Open Scope N_scope.

(** The Unicode data the model holds: the canonical decomposition mapping
    of every character made of an ASCII character and marks of the block
    Combining Diacritical Marks (U+0300 to U+036F), and of those marks;
    and the canonical combining classes of the marks, by ranges.  Every
    other code point is taken as a starter that neither decomposes nor
    composes. *)
Definition decomposition_mapping : gmap N (list N) :=
  list_to_map
  [
   (192, [65; 768]); (193, [65; 769]); (194, [65; 770]); (195, [65; 771]);
   (196, [65; 776]); (197, [65; 778]); (199, [67; 807]); (200, [69; 768]);
   (201, [69; 769]); (202, [69; 770]); (203, [69; 776]); (204, [73; 768]);
   (205, [73; 769]); (206, [73; 770]); (207, [73; 776]); (209, [78; 771]);
   (210, [79; 768]); (211, [79; 769]); (212, [79; 770]); (213, [79; 771]);
   (214, [79; 776]); (217, [85; 768]); (218, [85; 769]); (219, [85; 770]);
   (220, [85; 776]); (221, [89; 769]); (224, [97; 768]); (225, [97; 769]);
   (226, [97; 770]); (227, [97; 771]); (228, [97; 776]); (229, [97; 778]);
   (231, [99; 807]); (232, [101; 768]); (233, [101; 769]);
   (234, [101; 770]); (235, [101; 776]); (236, [105; 768]);
   (237, [105; 769]); (238, [105; 770]); (239, [105; 776]);
   (241, [110; 771]); (242, [111; 768]); (243, [111; 769]);
   (244, [111; 770]); (245, [111; 771]); (246, [111; 776]);
   (249, [117; 768]); (250, [117; 769]); (251, [117; 770]);
   (252, [117; 776]); (253, [121; 769]); (255, [121; 776]);
   (256, [65; 772]); (257, [97; 772]); (258, [65; 774]); (259, [97; 774]);
   (260, [65; 808]); (261, [97; 808]); (262, [67; 769]); (263, [99; 769]);
   (264, [67; 770]); (265, [99; 770]); (266, [67; 775]); (267, [99; 775]);
   (268, [67; 780]); (269, [99; 780]); (270, [68; 780]); (271, [100; 780]);
   (274, [69; 772]); (275, [101; 772]); (276, [69; 774]); (277, [101; 774]);
   (278, [69; 775]); (279, [101; 775]); (280, [69; 808]); (281, [101; 808]);
   (282, [69; 780]); (283, [101; 780]); (284, [71; 770]); (285, [103; 770]);
   (286, [71; 774]); (287, [103; 774]); (288, [71; 775]); (289, [103; 775]);
   (290, [71; 807]); (291, [103; 807]); (292, [72; 770]); (293, [104; 770]);
   (296, [73; 771]); (297, [105; 771]); (298, [73; 772]); (299, [105; 772]);
   (300, [73; 774]); (301, [105; 774]); (302, [73; 808]); (303, [105; 808]);
   (304, [73; 775]); (308, [74; 770]); (309, [106; 770]); (310, [75; 807]);
   (311, [107; 807]); (313, [76; 769]); (314, [108; 769]); (315, [76; 807]);
   (316, [108; 807]); (317, [76; 780]); (318, [108; 780]); (323, [78; 769]);
   (324, [110; 769]); (325, [78; 807]); (326, [110; 807]); (327, [78; 780]);
   (328, [110; 780]); (332, [79; 772]); (333, [111; 772]); (334, [79; 774]);
   (335, [111; 774]); (336, [79; 779]); (337, [111; 779]); (340, [82; 769]);
   (341, [114; 769]); (342, [82; 807]); (343, [114; 807]); (344, [82; 780]);
   (345, [114; 780]); (346, [83; 769]); (347, [115; 769]); (348, [83; 770]);
   (349, [115; 770]); (350, [83; 807]); (351, [115; 807]); (352, [83; 780]);
   (353, [115; 780]); (354, [84; 807]); (355, [116; 807]); (356, [84; 780]);
   (357, [116; 780]); (360, [85; 771]); (361, [117; 771]); (362, [85; 772]);
   (363, [117; 772]); (364, [85; 774]); (365, [117; 774]); (366, [85; 778]);
   (367, [117; 778]); (368, [85; 779]); (369, [117; 779]); (370, [85; 808]);
   (371, [117; 808]); (372, [87; 770]); (373, [119; 770]); (374, [89; 770]);
   (375, [121; 770]); (376, [89; 776]); (377, [90; 769]); (378, [122; 769]);
   (379, [90; 775]); (380, [122; 775]); (381, [90; 780]); (382, [122; 780]);
   (416, [79; 795]); (417, [111; 795]); (431, [85; 795]); (432, [117; 795]);
   (461, [65; 780]); (462, [97; 780]); (463, [73; 780]); (464, [105; 780]);
   (465, [79; 780]); (466, [111; 780]); (467, [85; 780]); (468, [117; 780]);
   (469, [220; 772]); (470, [252; 772]); (471, [220; 769]);
   (472, [252; 769]); (473, [220; 780]); (474, [252; 780]);
   (475, [220; 768]); (476, [252; 768]); (478, [196; 772]);
   (479, [228; 772]); (480, [550; 772]); (481, [551; 772]);
   (486, [71; 780]); (487, [103; 780]); (488, [75; 780]); (489, [107; 780]);
   (490, [79; 808]); (491, [111; 808]); (492, [490; 772]);
   (493, [491; 772]); (496, [106; 780]); (500, [71; 769]);
   (501, [103; 769]); (504, [78; 768]); (505, [110; 768]);
   (506, [197; 769]); (507, [229; 769]); (512, [65; 783]); (513, [97; 783]);
   (514, [65; 785]); (515, [97; 785]); (516, [69; 783]); (517, [101; 783]);
   (518, [69; 785]); (519, [101; 785]); (520, [73; 783]); (521, [105; 783]);
   (522, [73; 785]); (523, [105; 785]); (524, [79; 783]); (525, [111; 783]);
   (526, [79; 785]); (527, [111; 785]); (528, [82; 783]); (529, [114; 783]);
   (530, [82; 785]); (531, [114; 785]); (532, [85; 783]); (533, [117; 783]);
   (534, [85; 785]); (535, [117; 785]); (536, [83; 806]); (537, [115; 806]);
   (538, [84; 806]); (539, [116; 806]); (542, [72; 780]); (543, [104; 780]);
   (550, [65; 775]); (551, [97; 775]); (552, [69; 807]); (553, [101; 807]);
   (554, [214; 772]); (555, [246; 772]); (556, [213; 772]);
   (557, [245; 772]); (558, [79; 775]); (559, [111; 775]);
   (560, [558; 772]); (561, [559; 772]); (562, [89; 772]);
   (563, [121; 772]); (832, [768]); (833, [769]); (835, [787]);
   (836, [776; 769]); (894, [59]); (7680, [65; 805]); (7681, [97; 805]);
   (7682, [66; 775]); (7683, [98; 775]); (7684, [66; 803]);
   (7685, [98; 803]); (7686, [66; 817]); (7687, [98; 817]);
   (7688, [199; 769]); (7689, [231; 769]); (7690, [68; 775]);
   (7691, [100; 775]); (7692, [68; 803]); (7693, [100; 803]);
   (7694, [68; 817]); (7695, [100; 817]); (7696, [68; 807]);
   (7697, [100; 807]); (7698, [68; 813]); (7699, [100; 813]);
   (7700, [274; 768]); (7701, [275; 768]); (7702, [274; 769]);
   (7703, [275; 769]); (7704, [69; 813]); (7705, [101; 813]);
   (7706, [69; 816]); (7707, [101; 816]); (7708, [552; 774]);
   (7709, [553; 774]); (7710, [70; 775]); (7711, [102; 775]);
   (7712, [71; 772]); (7713, [103; 772]); (7714, [72; 775]);
   (7715, [104; 775]); (7716, [72; 803]); (7717, [104; 803]);
   (7718, [72; 776]); (7719, [104; 776]); (7720, [72; 807]);
   (7721, [104; 807]); (7722, [72; 814]); (7723, [104; 814]);
   (7724, [73; 816]); (7725, [105; 816]); (7726, [207; 769]);
   (7727, [239; 769]); (7728, [75; 769]); (7729, [107; 769]);
   (7730, [75; 803]); (7731, [107; 803]); (7732, [75; 817]);
   (7733, [107; 817]); (7734, [76; 803]); (7735, [108; 803]);
   (7736, [7734; 772]); (7737, [7735; 772]); (7738, [76; 817]);
   (7739, [108; 817]); (7740, [76; 813]); (7741, [108; 813]);
   (7742, [77; 769]); (7743, [109; 769]); (7744, [77; 775]);
   (7745, [109; 775]); (7746, [77; 803]); (7747, [109; 803]);
   (7748, [78; 775]); (7749, [110; 775]); (7750, [78; 803]);
   (7751, [110; 803]); (7752, [78; 817]); (7753, [110; 817]);
   (7754, [78; 813]); (7755, [110; 813]); (7756, [213; 769]);
   (7757, [245; 769]); (7758, [213; 776]); (7759, [245; 776]);
   (7760, [332; 768]); (7761, [333; 768]); (7762, [332; 769]);
   (7763, [333; 769]); (7764, [80; 769]); (7765, [112; 769]);
   (7766, [80; 775]); (7767, [112; 775]); (7768, [82; 775]);
   (7769, [114; 775]); (7770, [82; 803]); (7771, [114; 803]);
   (7772, [7770; 772]); (7773, [7771; 772]); (7774, [82; 817]);
   (7775, [114; 817]); (7776, [83; 775]); (7777, [115; 775]);
   (7778, [83; 803]); (7779, [115; 803]); (7780, [346; 775]);
   (7781, [347; 775]); (7782, [352; 775]); (7783, [353; 775]);
   (7784, [7778; 775]); (7785, [7779; 775]); (7786, [84; 775]);
   (7787, [116; 775]); (7788, [84; 803]); (7789, [116; 803]);
   (7790, [84; 817]); (7791, [116; 817]); (7792, [84; 813]);
   (7793, [116; 813]); (7794, [85; 804]); (7795, [117; 804]);
   (7796, [85; 816]); (7797, [117; 816]); (7798, [85; 813]);
   (7799, [117; 813]); (7800, [360; 769]); (7801, [361; 769]);
   (7802, [362; 776]); (7803, [363; 776]); (7804, [86; 771]);
   (7805, [118; 771]); (7806, [86; 803]); (7807, [118; 803]);
   (7808, [87; 768]); (7809, [119; 768]); (7810, [87; 769]);
   (7811, [119; 769]); (7812, [87; 776]); (7813, [119; 776]);
   (7814, [87; 775]); (7815, [119; 775]); (7816, [87; 803]);
   (7817, [119; 803]); (7818, [88; 775]); (7819, [120; 775]);
   (7820, [88; 776]); (7821, [120; 776]); (7822, [89; 775]);
   (7823, [121; 775]); (7824, [90; 770]); (7825, [122; 770]);
   (7826, [90; 803]); (7827, [122; 803]); (7828, [90; 817]);
   (7829, [122; 817]); (7830, [104; 817]); (7831, [116; 776]);
   (7832, [119; 778]); (7833, [121; 778]); (7840, [65; 803]);
   (7841, [97; 803]); (7842, [65; 777]); (7843, [97; 777]);
   (7844, [194; 769]); (7845, [226; 769]); (7846, [194; 768]);
   (7847, [226; 768]); (7848, [194; 777]); (7849, [226; 777]);
   (7850, [194; 771]); (7851, [226; 771]); (7852, [7840; 770]);
   (7853, [7841; 770]); (7854, [258; 769]); (7855, [259; 769]);
   (7856, [258; 768]); (7857, [259; 768]); (7858, [258; 777]);
   (7859, [259; 777]); (7860, [258; 771]); (7861, [259; 771]);
   (7862, [7840; 774]); (7863, [7841; 774]); (7864, [69; 803]);
   (7865, [101; 803]); (7866, [69; 777]); (7867, [101; 777]);
   (7868, [69; 771]); (7869, [101; 771]); (7870, [202; 769]);
   (7871, [234; 769]); (7872, [202; 768]); (7873, [234; 768]);
   (7874, [202; 777]); (7875, [234; 777]); (7876, [202; 771]);
   (7877, [234; 771]); (7878, [7864; 770]); (7879, [7865; 770]);
   (7880, [73; 777]); (7881, [105; 777]); (7882, [73; 803]);
   (7883, [105; 803]); (7884, [79; 803]); (7885, [111; 803]);
   (7886, [79; 777]); (7887, [111; 777]); (7888, [212; 769]);
   (7889, [244; 769]); (7890, [212; 768]); (7891, [244; 768]);
   (7892, [212; 777]); (7893, [244; 777]); (7894, [212; 771]);
   (7895, [244; 771]); (7896, [7884; 770]); (7897, [7885; 770]);
   (7898, [416; 769]); (7899, [417; 769]); (7900, [416; 768]);
   (7901, [417; 768]); (7902, [416; 777]); (7903, [417; 777]);
   (7904, [416; 771]); (7905, [417; 771]); (7906, [416; 803]);
   (7907, [417; 803]); (7908, [85; 803]); (7909, [117; 803]);
   (7910, [85; 777]); (7911, [117; 777]); (7912, [431; 769]);
   (7913, [432; 769]); (7914, [431; 768]); (7915, [432; 768]);
   (7916, [431; 777]); (7917, [432; 777]); (7918, [431; 771]);
   (7919, [432; 771]); (7920, [431; 803]); (7921, [432; 803]);
   (7922, [89; 768]); (7923, [121; 768]); (7924, [89; 803]);
   (7925, [121; 803]); (7926, [89; 777]); (7927, [121; 777]);
   (7928, [89; 771]); (7929, [121; 771]); (8175, [96]); (8490, [75]);
   (8491, [197]); (8800, [61; 824]); (8814, [60; 824]); (8815, [62; 824])
  ].

Definition combining_classes : list (N * N * N) :=
  [
   (768, 788, 230); (789, 789, 232); (790, 793, 220); (794, 794, 232);
   (795, 795, 216); (796, 800, 220); (801, 802, 202); (803, 806, 220);
   (807, 808, 202); (809, 819, 220); (820, 824, 1); (825, 828, 220);
   (829, 836, 230); (837, 837, 240); (838, 838, 230); (839, 841, 220);
   (842, 844, 230); (845, 846, 220); (848, 850, 230); (851, 854, 220);
   (855, 855, 230); (856, 856, 232); (857, 858, 220); (859, 859, 230);
   (860, 860, 233); (861, 862, 234); (863, 863, 233); (864, 865, 234);
   (866, 866, 233); (867, 879, 230)
  ].

(** Characters with a two-part decomposition that composition leaves
    apart. *)
Definition composition_exclusions : list N := [836].

Definition ccc (p : Piece) : N :=
  match p with
  | Rune r =>
      from_option (fun '(_, _, c) => c) 0
        (head (filter (fun '(lo, hi, _) => between lo hi r = true)
                 combining_classes))
  | Stray _ => 0
  end.

(** The full canonical decomposition; the mappings nest three deep at
    most. *)
Fixpoint decompose (depth : nat) (r : N) : list N :=
  match depth with
  | O => [r]
  | S depth' =>
      match decomposition_mapping !! r with
      | Some d => flat_map (decompose depth') d
      | None => [r]
      end
  end.

Definition decompose_piece (p : Piece) : list Piece :=
  match p with
  | Rune r => Rune <$> decompose 4 r
  | Stray _ => [p]
  end.

(** Canonical ordering: a mark moves before the marks of a higher class
    that precede it.  The output is kept last piece first. *)
Fixpoint insert_mark (x : Piece) (out : list Piece) : list Piece :=
  match out with
  | y :: rest =>
      if (0 <? ccc x) && (ccc x <? ccc y) then y :: insert_mark x rest
      else x :: out
  | [] => [x]
  end.

Definition reorder (ps : list Piece) : list Piece :=
  reverse (foldl (fun out x => insert_mark x out) [] ps).

(** The primary composites, by their two parts. *)
Definition composites : gmap (N * N) N :=
  list_to_map
    (omap (fun '(c, d) =>
             match d with
             | [a; b] =>
                 if bool_decide (c ∈ composition_exclusions) then None
                 else Some ((a, b), c)
             | _ => None
             end)
       (map_to_list decomposition_mapping)).

Definition compose_pair (s x : Piece) : option Piece :=
  match s, x with
  | Rune a, Rune b => Rune <$> composites !! (a, b)
  | _, _ => None
  end.

(** Canonical composition.  The state: the output before the last
    starter, last piece first; the last starter; the pieces after it, last
    first; the class of the last piece put out. *)
Definition compose_step
    '((out, starter, marks, last) : list Piece * option Piece * list Piece * N)
    (x : Piece) : list Piece * option Piece * list Piece * N :=
  let put :=
    if ccc x =? 0
    then ((marks ++ option_list starter ++ out)%list, Some x, [], 0)
    else (out, starter, x :: marks, ccc x) in
  match starter with
  | None => put
  | Some s =>
      match compose_pair s x with
      | Some p =>
          if (last <? ccc x) || (last =? 0) then (out, Some p, marks, last)
          else put
      | None => put
      end
  end.

Definition compose (ps : list Piece) : list Piece :=
  let '(out, starter, marks, _) := foldl compose_step ([], None, [], 0) ps in
  reverse (marks ++ option_list starter ++ out)%list.

(** The quick check: ASCII text is in normal form as it is. *)
Definition is_ascii (s : string) : bool :=
  forallb (fun a => Ascii.N_of_ascii a <? 128) (String.list_ascii_of_string s).

(** [norm.NFC.String(s)]: [s] in Normalization Form C. *)
Definition NFC_String (s : string) : string :=
  if is_ascii s then s
  else encode (compose (reorder (flat_map decompose_piece (decode s)))).

End norm.

(** ** Packages cty, hcl and hclwrite *)

Module cty.

(** [cty.NormalizeString]: the strings held in cty values are in
    Normalization Form C. *)
Definition NormalizeString (s : string) : string := norm.NFC_String s.

(** The values the program builds: strings, and objects made from a Go
    [map[string]cty.Value].  The attribute names of an object are kept as
    given: normalization leaves the names this program uses, all ASCII,
    as they are. *)
Inductive Value :=
| Str (s : string)
| ObjectVal (attrs : gmap string Value).

(** [cty.StringVal(v)]: the string value of [v], normalized. *)
Definition StringVal (v : string) : Value := Str (NormalizeString v).

End cty.

Module hcl.

Inductive Traverser :=
| TraverseRoot (Name : string)
| TraverseAttr (Name : string).

Abbreviation Traversal := (list Traverser).

End hcl.

Module hclwrite.

(** An attribute's expression: a literal made from a cty value, or an
    absolute traversal kept as written. *)
Inductive Expression :=
| ExprValue (v : cty.Value)
| ExprTraversal (t : hcl.Traversal).

(** A body is the sequence of its attributes and blocks, in the order
    they were added; a file is its root body. *)
Inductive Item :=
| Attribute (name : string) (expr : Expression)
| Block (typeName : string) (labels : list string) (body : list Item).

Abbreviation Body := (list Item).
Abbreviation File := (list Item).

(** The program holds pointers into the file it builds ([*Block],
    [*Body]) and mutates the file through them.  A pointer is the chain
    of item positions that leads from the root body to the block. *)
Abbreviation Ref := (list nat).

Definition NewEmptyFile : File := [].
Definition File_Body : Ref := [].
Definition Block_Body (blk : Ref) : Ref := blk.

Fixpoint body_at (ref : Ref) (b : Body) : option Body :=
  match ref with
  | [] => Some b
  | i :: ref' =>
      match b !! i with
      | Some (Block _ _ body) => body_at ref' body
      | _ => None
      end
  end.

Fixpoint update_body (ref : Ref) (f : Body → Body) (b : Body) : Body :=
  match ref with
  | [] => f b
  | i :: ref' =>
      match b !! i with
      | Some (Block t ls body) =>
          <[i := Block t ls (update_body ref' f body)]> b
      | _ => b
      end
  end.

(** [Body.AppendNewBlock]: the new block goes last; a pointer to it is
    returned. *)
Definition AppendNewBlock (file : File) (ref : Ref) (typeName : string)
    (labels : list string) : File * Ref :=
  let i := from_option length 0%nat (body_at ref file) in
  (update_body ref (fun b => (b ++ [Block typeName labels []])%list) file,
   (ref ++ [i])%list).

(** An attribute that is already there keeps its place and gets the new
    expression; a new one goes last. *)
Fixpoint set_attribute (name : string) (e : Expression) (b : Body) : Body :=
  match b with
  | [] => [Attribute name e]
  | Attribute n e' :: rest =>
      if String.eqb n name then Attribute n e :: rest
      else Attribute n e' :: set_attribute name e rest
  | it :: rest => it :: set_attribute name e rest
  end.

Definition SetAttributeValue (file : File) (ref : Ref) (name : string)
    (val : cty.Value) : File :=
  update_body ref (set_attribute name (ExprValue val)) file.

Definition SetAttributeTraversal (file : File) (ref : Ref) (name : string)
    (traversal : hcl.Traversal) : File :=
  update_body ref (set_attribute name (ExprTraversal traversal)) file.

(** [Body.GetAttribute] and [Body.Blocks]. *)
Fixpoint GetAttribute (b : Body) (name : string) : option Expression :=
  match b with
  | [] => None
  | Attribute n e :: rest =>
      if String.eqb n name then Some e else GetAttribute rest name
  | _ :: rest => GetAttribute rest name
  end.

Definition Attributes (b : Body) : list (string * Expression) :=
  omap (fun it => match it with
                  | Attribute n e => Some (n, e)
                  | Block _ _ _ => None
                  end) b.

Definition Blocks (b : Body) : list (string * list string * Body) :=
  omap (fun it => match it with
                  | Attribute _ _ => None
                  | Block t ls body => Some (t, ls, body)
                  end) b.

(** The tokens of a traversal: the root name as one identifier token,
    then a dot and an identifier for each attribute step.  The source
    text of the traversal is the tokens' text, with no space between. *)
Inductive Token :=
| TokenIdent (s : string)
| TokenDot.

Definition TokensForTraversal (t : hcl.Traversal) : list Token :=
  flat_map (fun step => match step with
                        | hcl.TraverseRoot n => [TokenIdent n]
                        | hcl.TraverseAttr n => [TokenDot; TokenIdent n]
                        end) t.

Definition token_text (t : Token) : string :=
  match t with
  | TokenIdent s => s
  | TokenDot => "."
  end.

Definition traversal_text (t : hcl.Traversal) : string :=
  foldr (fun tok acc => token_text tok +:+ acc) "" (TokensForTraversal t).

End hclwrite.

(** * The program *)

Section Program.

(** [hclFile.Bytes()], the serializer of hclwrite. *)
Variable Bytes : hclwrite.File → list byte.

Definition tfDir : string := "terraform".
Definition tfLocalsFileName : string := "locals.tf".
Definition tfMainFileName : string := "main.tf".

Definition makeDir (path : string) : M unit :=
  let* '(_, err) := os.Stat path in
  if os.IsNotExist err then
    let* _ := os.Mkdir path (N.lor os.ModeDir 493%N) in
    ret tt
  else
    match err with
    | Some e => panic e
    | None => ret tt
    end.

Definition createFile (fileName : string) : M os.File :=
  let* '(file, err) := os.Create (tfDir +:+ "/" +:+ fileName) in
  match err with
  | Some e => panic e
  | None => ret file
  end.

(** The inner loop of [createTerraformLocals], over the two variables it
    changes: its body, then the loop. *)
Definition fieldsStep '((indexField, crnMap) : Z * gmap string cty.Value)
  : M (Z * gmap string cty.Value) :=
  let* k := rand.Int in
  let* v := rand.Int in
  let crnMap :=
    <["field-" +:+ fmt.Sprint (fmt.Sprint k) :=
        cty.StringVal ("crn:v1:bluemix:" +:+ fmt.Sprint v)]> crnMap in
  ret (int_add indexField 1, crnMap).

Definition fieldsLoop (indexField : Z) (crnMap : gmap string cty.Value)
  : M (Z * gmap string cty.Value) :=
  while 6 (fun '(indexField, _) => (indexField <? 5)%Z) fieldsStep
    (indexField, crnMap).

(** The outer loop, likewise. *)
Definition secretsStep '((indexSecret, secretsMap) : Z * gmap string cty.Value)
  : M (Z * gmap string cty.Value) :=
  let indexField := 0%Z in
  let fieldsMap : gmap string cty.Value := ∅ in
  let crnMap : gmap string cty.Value := ∅ in
  let* '(indexField, crnMap) := fieldsLoop indexField crnMap in
  let fieldsMap := <["fields" := cty.ObjectVal crnMap]> fieldsMap in
  let secretsMap :=
    <["secret-" +:+ fmt.Sprint indexSecret :=
        cty.ObjectVal fieldsMap]> secretsMap in
  ret (int_add indexSecret 1, secretsMap).

Definition secretsLoop (indexSecret : Z) (secretsMap : gmap string cty.Value)
  : M (Z * gmap string cty.Value) :=
  while 6 (fun '(indexSecret, _) => (indexSecret <? 5)%Z) secretsStep
    (indexSecret, secretsMap).

Definition createTerraformLocals : M unit :=
  let hclFile := hclwrite.NewEmptyFile in
  let* _ := makeDir tfDir in
  let* tfFile := createFile tfLocalsFileName in
  let '(hclFile, terraformLocals) :=
    hclwrite.AppendNewBlock hclFile hclwrite.File_Body "locals" [] in
  let secretsMap : gmap string cty.Value := ∅ in
  let indexSecret := 0%Z in
  let* '(indexSecret, secretsMap) := secretsLoop indexSecret secretsMap in
  let hclFile :=
    hclwrite.SetAttributeValue hclFile (hclwrite.Block_Body terraformLocals)
      "secrets" (cty.ObjectVal secretsMap) in
  let* _ := os.File_Write tfFile (Bytes hclFile) in
  ret tt.

Definition createTerraformMain : M unit :=
  let hclFile := hclwrite.NewEmptyFile in
  let* _ := makeDir tfDir in
  let* tfFile := createFile tfMainFileName in
  let '(hclFile, resource) :=
    hclwrite.AppendNewBlock hclFile hclwrite.File_Body "resource"
      ["ibm_container_ingress_secret_opaque"; "ingress-secret"] in
  let resourceBody := hclwrite.Block_Body resource in
  let hclFile :=
    hclwrite.SetAttributeTraversal hclFile resourceBody "for_each"
      [hcl.TraverseRoot "local"; hcl.TraverseAttr "secrets"] in
  let* cluster := os.Getenv "CLUSTER_ID" in
  let hclFile :=
    hclwrite.SetAttributeValue hclFile resourceBody "cluster"
      (cty.StringVal cluster) in
  let hclFile :=
    hclwrite.SetAttributeTraversal hclFile resourceBody "secret_name"
      [hcl.TraverseRoot "each"; hcl.TraverseAttr "key"] in
  let* namespace := os.Getenv "NAMESPACE" in
  let hclFile :=
    hclwrite.SetAttributeValue hclFile resourceBody "secret_namespace"
      (cty.StringVal namespace) in
  let '(hclFile, dynamicBlock) :=
    hclwrite.AppendNewBlock hclFile resourceBody "dynamic" ["fields"] in
  let dynamicBlockBody := hclwrite.Block_Body dynamicBlock in
  let hclFile :=
    hclwrite.SetAttributeTraversal hclFile dynamicBlockBody "for_each"
      [hcl.TraverseRoot "local.secrets[each.key]";
       hcl.TraverseAttr "fields"] in
  let '(hclFile, contentBlock) :=
    hclwrite.AppendNewBlock hclFile dynamicBlockBody "content" [] in
  let contentBlockBody := hclwrite.Block_Body contentBlock in
  let hclFile :=
    hclwrite.SetAttributeTraversal hclFile contentBlockBody "field_name"
      [hcl.TraverseRoot "fields"; hcl.TraverseAttr "key"] in
  let hclFile :=
    hclwrite.SetAttributeTraversal hclFile contentBlockBody "crn"
      [hcl.TraverseRoot "fields"; hcl.TraverseAttr "value"] in
  let* _ := os.File_Write tfFile (Bytes hclFile) in
  ret tt.

Definition main : M unit :=
  let* _ := createTerraformLocals in
  createTerraformMain.

End Program.

(** * Notions used in the statements *)

(** The value [os.Getenv] returns for [key] in the world [w]. *)
Definition getenv (w : World) (key : string) : string :=
  default "" (environ w !! key).

(** Go's [m[k] = v], for a list of pairs in order: a later pair with the
    same key overwrites an earlier one. *)
Definition put_all {V} (kvs : list (string * V)) (m : gmap string V)
  : gmap string V :=
  foldl (fun m kv => <[kv.1 := kv.2]> m) m kvs.

(** The field name and the CRN synthesized from the two numbers the
    generator [src] yields at positions [p] and [p + 1]. *)
Definition field_name (src : nat → Z) (p : nat) : string :=
  "field-" +:+ pretty (src p mod 2 ^ 63)%Z.

Definition field_crn (src : nat → Z) (p : nat) : cty.Value :=
  cty.StringVal ("crn:v1:bluemix:" +:+ pretty (src (S p) mod 2 ^ 63)%Z).

(** The [k] pairs synthesized from position [p] on, in the order drawn. *)
Definition field_pairs (src : nat → Z) (p k : nat)
  : list (string * cty.Value) :=
  (fun j => (field_name src (p + 2 * j), field_crn src (p + 2 * j)))
    <$> seq 0 k.

(** The numbers drawn for the five field names of one entry. *)
Definition name_draws (src : nat → Z) (p : nat) : list Z :=
  (fun j => (src (p + 2 * j)%nat mod 2 ^ 63)%Z) <$> seq 0 5.

(** The Fields Map of the entry whose draws start at position [p]. *)
Definition fields_of (src : nat → Z) (p : nat) : gmap string cty.Value :=
  put_all (field_pairs src p 5) ∅.

(** Entries [i], [i + 1], ... ([k] of them), the first drawing from [p]. *)
Definition secret_entries (src : nat → Z) (p : nat) (i : Z) (k : nat)
  : list (string * cty.Value) :=
  (fun j => ("secret-" +:+ pretty (i + Z.of_nat j)%Z,
             cty.ObjectVal
               {["fields" := cty.ObjectVal (fields_of src (p + 10 * j))]}))
    <$> seq 0 k.

(** The Secrets Mapping built from position [p] of the generator. *)
Definition secrets_of (src : nat → Z) (p : nat) : gmap string cty.Value :=
  put_all (secret_entries src p 0 5) ∅.

(** The two documents. *)
Definition locals_document (secretsMap : gmap string cty.Value)
  : hclwrite.File :=
  [hclwrite.Block "locals" []
     [hclwrite.Attribute "secrets"
        (hclwrite.ExprValue (cty.ObjectVal secretsMap))]].

Definition resource_document (cluster namespace : string) : hclwrite.File :=
  [hclwrite.Block "resource"
     ["ibm_container_ingress_secret_opaque"; "ingress-secret"]
     [hclwrite.Attribute "for_each"
        (hclwrite.ExprTraversal
           [hcl.TraverseRoot "local"; hcl.TraverseAttr "secrets"]);
      hclwrite.Attribute "cluster"
        (hclwrite.ExprValue (cty.StringVal cluster));
      hclwrite.Attribute "secret_name"
        (hclwrite.ExprTraversal
           [hcl.TraverseRoot "each"; hcl.TraverseAttr "key"]);
      hclwrite.Attribute "secret_namespace"
        (hclwrite.ExprValue (cty.StringVal namespace));
      hclwrite.Block "dynamic" ["fields"]
        [hclwrite.Attribute "for_each"
           (hclwrite.ExprTraversal
              [hcl.TraverseRoot "local.secrets[each.key]";
               hcl.TraverseAttr "fields"]);
         hclwrite.Block "content" []
           [hclwrite.Attribute "field_name"
              (hclwrite.ExprTraversal
                 [hcl.TraverseRoot "fields"; hcl.TraverseAttr "key"]);
            hclwrite.Attribute "crn"
              (hclwrite.ExprTraversal
                 [hcl.TraverseRoot "fields"; hcl.TraverseAttr "value"])]]]].

(** The world after [os.Create name] succeeded in [w]. *)
Definition created (name : string) (w : World) : World :=
  log (EvCreate name None)
    (with_fds (fds w ++ [{| of_name := name; of_offset := 0%nat;
                            of_closed := false |}])
       (with_nodes (<[name := RegularFile []]> (nodes w)) w)).

(** The world an emitter leaves: from [w1], the file [name] was created,
    the generator moved to position [p], and [b] was handed to one
    [Write], which took [r.1] bytes of it and returned the error [r.2]. *)
Definition written (name : string) (b : list byte) (p : nat) (w1 : World)
  : World :=
  let r := os.write_result w1 name b in
  {| environ := environ w1; umask := umask w1; rand_src := rand_src w1;
     rand_pos := p;
     nodes := <[name := RegularFile (take r.1 b)]> (nodes w1);
     faults := faults w1;
     fds := fds w1 ++ [{| of_name := name; of_offset := r.1;
                          of_closed := false |}];
     syscalls := syscalls w1
                   ++ [EvCreate name None; EvWrite name b r.1 r.2] |}.

Definition is_close (ev : Event) : bool :=
  match ev with
  | EvClose _ => true
  | _ => false
  end.

(** The claim that every run yields five entries of five fields each. *)
Definition cardinality_5x5 (w : World) : Prop :=
  ∃ secretsMap w',
    secretsLoop 0 ∅ w = Ok (5%Z, secretsMap) w'
    ∧ size secretsMap = 5%nat
    ∧ ∀ name fieldsMap crnMap,
        secretsMap !! name = Some (cty.ObjectVal fieldsMap) →
        fieldsMap !! "fields" = Some (cty.ObjectVal crnMap) →
        size crnMap = 5%nat.


(** ** Sample inputs *)

(** A plain rendering of a document, to run the program on examples.  It
    is not the layout hclwrite produces. *)
Definition quote : string := String (Ascii.ascii_of_nat 34) EmptyString.
Definition newline : string := String (Ascii.ascii_of_nat 10) EmptyString.

Fixpoint render_value (v : cty.Value) : string :=
  match v with
  | cty.Str s => quote +:+ s +:+ quote
  | cty.ObjectVal m =>
      "{ " +:+ map_fold (fun k v' acc =>
                           k +:+ " = " +:+ render_value v' +:+ "; " +:+ acc)
                        "}" m
  end.

Definition render_expression (e : hclwrite.Expression) : string :=
  match e with
  | hclwrite.ExprValue v => render_value v
  | hclwrite.ExprTraversal t => hclwrite.traversal_text t
  end.

Fixpoint render_item (it : hclwrite.Item) : string :=
  match it with
  | hclwrite.Attribute n e => n +:+ " = " +:+ render_expression e +:+ newline
  | hclwrite.Block t ls body =>
      t +:+ foldr (fun l acc => " " +:+ quote +:+ l +:+ quote +:+ acc) "" ls
        +:+ " {" +:+ newline
        +:+ (fix go (b : list hclwrite.Item) : string :=
               match b with
               | [] => ""
               | it' :: b' => render_item it' +:+ go b'
               end) body
        +:+ "}" +:+ newline
  end.

Definition sample_Bytes (f : hclwrite.File) : list byte :=
  String.list_byte_of_string (foldr (fun it acc => render_item it +:+ acc) "" f).

Definition no_faults : Faults :=
  {| stat_fault := fun _ => None; mkdir_fault := fun _ => None;
     create_fault := fun _ => None; write_fault := fun _ => None |}.

(** A first run: no [terraform] directory yet, both variables set. *)
Definition fresh_world : World :=
  {| environ := {["CLUSTER_ID" := "prod-1234"; "NAMESPACE" := "ns-a"]};
     umask := 18;
     rand_src := fun n => (7919 * Z.of_nat n + 17)%Z; rand_pos := 0;
     nodes := ∅; faults := no_faults; fds := []; syscalls := [] |}.

(** The same environment, another generator, other files on disk. *)
Definition other_world : World :=
  {| environ := {["CLUSTER_ID" := "prod-1234"; "NAMESPACE" := "ns-a"]};
     umask := 18;
     rand_src := fun n => (104729 * Z.of_nat n + 5)%Z; rand_pos := 3;
     nodes := {["terraform" := Dir 493;
                "terraform/locals.tf" := RegularFile [x6f; x6c; x64]]};
     faults := no_faults; fds := []; syscalls := [] |}.

(** A re-run: the directory and both files exist, with old content that
    is longer than anything the sample rendering of [main.tf] needs, and
    no variable is set. *)
Definition stale : list byte := replicate 2000 x23.

Definition rerun_world : World :=
  {| environ := ∅; umask := 18;
     rand_src := fun n => (31 * Z.of_nat n + 1)%Z; rand_pos := 0;
     nodes := {["terraform" := Dir 493;
                "terraform/locals.tf" := RegularFile stale;
                "terraform/main.tf" := RegularFile stale]};
     faults := no_faults; fds := []; syscalls := [] |}.

(** The working directory is read-only: creating [terraform] is refused. *)
Definition readonly_world : World :=
  {| environ := ∅; umask := 18;
     rand_src := fun n => Z.of_nat n; rand_pos := 0;
     nodes := ∅;
     faults := {| stat_fault := fun _ => None;
                  mkdir_fault := fun name =>
                    if String.eqb name "terraform" then Some EACCES else None;
                  create_fault := fun _ => None;
                  write_fault := fun _ => None |};
     fds := []; syscalls := [] |}.

(** The working directory cannot be searched: [os.Stat] is refused. *)
Definition denied_world : World :=
  {| environ := ∅; umask := 18;
     rand_src := fun n => Z.of_nat n; rand_pos := 0;
     nodes := ∅;
     faults := {| stat_fault := fun name =>
                    if String.eqb name "terraform" then Some EACCES else None;
                  mkdir_fault := fun _ => None;
                  create_fault := fun _ => None;
                  write_fault := fun _ => None |};
     fds := []; syscalls := [] |}.

(** The disk is full: the directory and the files can be created, and a
    [Write] to [locals.tf] stops after 10 bytes. *)
Definition disk_full_world : World :=
  {| environ := ∅; umask := 18;
     rand_src := fun n => Z.of_nat n; rand_pos := 0;
     nodes := {["terraform" := Dir 493;
                "terraform/locals.tf" := RegularFile stale]};
     faults := {| stat_fault := fun _ => None;
                  mkdir_fault := fun _ => None;
                  create_fault := fun _ => None;
                  write_fault := fun name =>
                    if String.eqb name "terraform/locals.tf"
                    then Some (10%nat, ENOSPC) else None |};
     fds := []; syscalls := [] |}.

(** The generator repeats one number: the first and the third draw, both
    used for field names of [secret-0], are equal. *)
Definition collision_world : World :=
  {| environ := ∅; umask := 18;
     rand_src := fun n => if (n =? 2)%nat then 0%Z else Z.of_nat n;
     rand_pos := 0;
     nodes := ∅; faults := no_faults; fds := []; syscalls := [] |}.

(** CLUSTER_ID is the letter e followed by U+0301, the combining acute
    accent: the three bytes 65 cc 81. *)
Definition e_acute_combining : string :=
  String.string_of_list_byte [x65; xcc; x81].

Definition combining_world : World :=
  {| environ := {["CLUSTER_ID" := e_acute_combining; "NAMESPACE" := "ns-a"]};
     umask := 18;
     rand_src := fun n => Z.of_nat n; rand_pos := 0;
     nodes := ∅; faults := no_faults; fds := []; syscalls := [] |}.


(** ** Notions used in the further properties *)

(** How a run ends: [Some None] when it returns, [Some (Some e)] when it
    panics with [e]. *)
Definition outcome {A} (r : Result A) : option error :=
  match r with
  | Ok _ _ => Some None
  | Panic e _ => Some (Some e)
  | OutOfFuel => None
  end.

(** The world [w] with other failure modes for [Write]. *)
Definition set_write_fault (wf : string → option (nat * Errno)) (w : World)
  : World :=
  {| environ := environ w; umask := umask w; rand_src := rand_src w;
     rand_pos := rand_pos w;
     nodes := nodes w;
     faults := {| stat_fault := stat_fault (faults w);
                  mkdir_fault := mkdir_fault (faults w);
                  create_fault := create_fault (faults w);
                  write_fault := wf |};
     fds := fds w; syscalls := syscalls w |}.

(** What [os.Stat], [os.Mkdir] and [os.Create] can tell of an entry:
    absent, a directory, or a regular file. *)
Definition node_kind (n : option Node) : option bool :=
  match n with
  | Some (Dir _) => Some true
  | Some (RegularFile _) => Some false
  | None => None
  end.

(** Two worlds that these three calls cannot tell apart. *)
Definition same_shape (w1 w2 : World) : Prop :=
  (∀ name, stat_fault (faults w1) name = stat_fault (faults w2) name)
  ∧ (∀ name, mkdir_fault (faults w1) name = mkdir_fault (faults w2) name)
  ∧ (∀ name, create_fault (faults w1) name = create_fault (faults w2) name)
  ∧ ∀ name, node_kind (nodes w1 !! name) = node_kind (nodes w2 !! name).

(** Related runs: same outcome, and final worlds of the same shape. *)
Definition same_run {A} (r1 r2 : Result A) : Prop :=
  match r1, r2 with
  | Ok _ u1, Ok _ u2 => same_shape u1 u2
  | Panic e1 _, Panic e2 _ => e1 = e2
  | OutOfFuel, OutOfFuel => True
  | _, _ => False
  end.

(** The calls the code of the program can make: [os.Stat] and [os.Mkdir]
    of [terraform], the latter with [os.ModeDir|0755], and [os.Create] of
    and [Write] to the two files. *)
Definition program_call (ev : Event) : Prop :=
  match ev with
  | EvStat name _ => name = tfDir
  | EvMkdir name perm _ => name = tfDir ∧ perm = N.lor os.ModeDir 493
  | EvCreate name _ | EvWrite name _ _ _ =>
      name = tfDir +:+ "/" +:+ tfLocalsFileName
      ∨ name = tfDir +:+ "/" +:+ tfMainFileName
  | EvClose _ => False
  end.

(** From [w] to [w'] the process made at most [k] system calls, each of
    them one of the program's; the environment and the umask are the
    same, and an entry that was at [terraform] is still the same. *)
Definition ran (k : nat) (w w' : World) : Prop :=
  environ w' = environ w ∧ umask w' = umask w
  ∧ (∀ n, nodes w !! tfDir = Some n → nodes w' !! tfDir = Some n)
  ∧ ∃ evs, syscalls w' = (syscalls w ++ evs)%list
           ∧ (length evs ≤ k)%nat ∧ Forall program_call evs.

(** A working directory in which [terraform] is there, for its owner
    only, with an old [main.tf] in it. *)
Definition busy_world : World :=
  {| environ := {["HOME" := "/root"]}; umask := 18;
     rand_src := fun n => (13 * Z.of_nat n + 2)%Z; rand_pos := 0;
     nodes := {["notes.txt" := RegularFile [x68; x69];
                "terraform" := Dir 448;
                "terraform/providers.tf" := RegularFile [x74; x66];
                "terraform/main.tf" := RegularFile stale]};
     faults := no_faults; fds := []; syscalls := [] |}.

(** A process that keeps what it makes to its owner: umask 077. *)
Definition private_world : World :=
  {| environ := ∅; umask := 63;
     rand_src := fun n => Z.of_nat n; rand_pos := 0;
     nodes := ∅; faults := no_faults; fds := []; syscalls := [] |}.

(** [terraform] is there, and it is a regular file. *)
Definition file_in_the_way_world : World :=
  {| environ := ∅; umask := 18;
     rand_src := fun n => Z.of_nat n; rand_pos := 0;
     nodes := {["terraform" := RegularFile [x78]]};
     faults := no_faults; fds := []; syscalls := [] |}.

(** [terraform/main.tf] cannot be created, [terraform/locals.tf] can. *)
Definition main_tf_denied_world : World :=
  {| environ := ∅; umask := 18;
     rand_src := fun n => Z.of_nat n; rand_pos := 0;
     nodes := {["terraform" := Dir 493;
                "terraform/locals.tf" := RegularFile stale]};
     faults := {| stat_fault := fun _ => None;
                  mkdir_fault := fun _ => None;
                  create_fault := fun name =>
                    if String.eqb name "terraform/main.tf"
                    then Some EACCES else None;
                  write_fault := fun _ => None |};
     fds := []; syscalls := [] |}.

Local Close Scope Z_scope.

(** * The utilities *)

(** ** Calls that always return *)

Lemma Mkdir_returns path perm w :
  os.Mkdir path perm w =
    Ok (os.mkdir_result w path)
       (log (EvMkdir path perm (os.mkdir_result w path))
          (match os.mkdir_result w path with
           | Some _ => w
           | None =>
               with_nodes (<[path := Dir (os.new_mode w perm)]> (nodes w)) w
           end)).
Proof. unfold os.Mkdir. by destruct (os.mkdir_result w path). Qed.

Lemma int_wrap_small z : (- 2 ^ 63 ≤ z < 2 ^ 63)%Z → int_wrap z = z.
Proof. intros Hz. unfold int_wrap. rewrite Z.mod_small; lia. Qed.

Lemma with_rand_pos_id w : with_rand_pos (rand_pos w) w = w.
Proof. by destruct w. Qed.

(** What the system calls read: the nodes and the failure modes. *)
Lemma stat_result_ext w1 w2 path :
  nodes w1 = nodes w2 → faults w1 = faults w2 →
  os.stat_result w1 path = os.stat_result w2 path.
Proof. unfold os.stat_result, os.lookup_node. by intros -> ->. Qed.

Lemma mkdir_result_ext w1 w2 path :
  nodes w1 = nodes w2 → faults w1 = faults w2 →
  os.mkdir_result w1 path = os.mkdir_result w2 path.
Proof.
  unfold os.mkdir_result, os.parent_check, os.lookup_node. by intros -> ->.
Qed.

Lemma create_result_ext w1 w2 name :
  nodes w1 = nodes w2 → faults w1 = faults w2 →
  os.create_result w1 name = os.create_result w2 name.
Proof.
  unfold os.create_result, os.parent_check, os.lookup_node. by intros -> ->.
Qed.

Lemma lookup_node_insert w name d :
  name ≠ "" →
  is_Some (os.lookup_node (with_nodes (<[name := d]> (nodes w)) w) name).
Proof.
  intros Hne. unfold os.lookup_node. case_bool_decide; [eauto|].
  rewrite bool_decide_false by done.
  cbn. rewrite lookup_insert_eq. eauto.
Qed.

(** No entry is made at the empty path. *)
Lemma mkdir_result_nonempty w path :
  os.mkdir_result w path = None → path ≠ "".
Proof.
  unfold os.mkdir_result, os.parent_check. intros H ->.
  destruct (mkdir_fault _ _); [done|].
  by destruct (os.lookup_node w "").
Qed.

Lemma create_result_nonempty w name :
  os.create_result w name = None → name ≠ "".
Proof.
  unfold os.create_result, os.parent_check, os.lookup_node. intros H ->.
  destruct (create_fault _ _); [done|]. done.
Qed.

(** ** makeDir *)

(** [makeDir] by cases on what [os.Stat] reports. *)
Lemma makeDir_unfold path w :
  makeDir path w =
    let err := (os.stat_result w path).2 in
    let w1 := log (EvStat path err) w in
    match err with
    | None => Ok tt w1
    | Some ENOENT =>
        let r := os.mkdir_result w1 path in
        Ok tt (log (EvMkdir path (N.lor os.ModeDir 493) r)
                 (match r with
                  | Some _ => w1
                  | None =>
                      with_nodes
                        (<[path := Dir (os.new_mode w (N.lor os.ModeDir 493))]>
                           (nodes w1)) w1
                  end))
    | Some e => Panic e w1
    end.
Proof.
  cbv zeta. unfold makeDir, bind, os.Stat.
  destruct (os.stat_result w path) as [info [e|]]; cbn [snd]; [|done].
  destruct e; cbn; try done. by rewrite Mkdir_returns.
Qed.

(** What a call of [makeDir] that returns leaves behind. *)
Lemma makeDir_frame path w w' :
  makeDir path w = Ok tt w' →
  environ w' = environ w ∧ rand_src w' = rand_src w
  ∧ rand_pos w' = rand_pos w ∧ faults w' = faults w ∧ fds w' = fds w
  ∧ (∀ name, name ≠ path → nodes w' !! name = nodes w !! name)
  ∧ ∃ evs, syscalls w' = (syscalls w ++ evs)%list
           ∧ Forall (fun ev => is_close ev = false) evs.
Proof.
  rewrite makeDir_unfold. cbv zeta.
  destruct (os.stat_result w path).2 as [e|].
  2:{ intros [= <-]. repeat split; try done.
      eexists [_]. split; [done|]. by repeat constructor. }
  destruct e; try done.
  destruct (os.mkdir_result _ path); intros [= <-].
  - repeat split; try done. eexists [_; _]. cbn. rewrite <-(assoc_L app).
    split; [done|]. by repeat constructor.
  - repeat split; try done.
    + intros name Hne. cbn. by rewrite lookup_insert_ne.
    + eexists [_; _]. cbn. rewrite <-(assoc_L app).
      split; [done|]. by repeat constructor.
Qed.

Lemma stat_after_mkdir w path d :
  path ≠ "" →
  (os.stat_result w path).2 = Some ENOENT →
  (os.stat_result (with_nodes (<[path := d]> (nodes w)) w) path).2 = None
  ∨ (os.stat_result (with_nodes (<[path := d]> (nodes w)) w) path).2
    = Some ENOENT.
Proof.
  intros Hne. unfold os.stat_result. cbn [faults with_nodes]. destruct (stat_fault (faults w) path); [by right|].
  intros _. destruct (lookup_node_insert w path d Hne) as [n ->]. by left.
Qed.

Lemma mkdir_after_mkdir w path d :
  path ≠ "" →
  is_Some (os.mkdir_result (with_nodes (<[path := d]> (nodes w)) w) path).
Proof.
  intros Hne. unfold os.mkdir_result.
  destruct (mkdir_fault _ _); [eauto|].
  destruct (lookup_node_insert w path d Hne) as [n ->]. eauto.
Qed.

(** C6. [makeDir] panics exactly when [os.Stat] returns an error other
    than "does not exist".  When the error is "does not exist" it calls
    [os.Mkdir] and returns, whatever that call reports.  When [os.Stat]
    succeeds it returns with nothing done: no further call, the file
    system as it was. *)
Theorem makeDir_aborts_iff (path : string) (w : World) :
  let err := (os.stat_result w path).2 in
  let w1 := log (EvStat path err) w in
  ((∃ e w', makeDir path w = Panic e w')
   ↔ (∃ e, err = Some e ∧ os.IsNotExist err = false))
  ∧ (os.IsNotExist err = true →
       ∃ r w2, os.Mkdir path (N.lor os.ModeDir 493) w1 = Ok r w2
               ∧ makeDir path w = Ok tt w2)
  ∧ (err = None → makeDir path w = Ok tt w1 ∧ nodes w1 = nodes w).
Proof.
  cbv zeta. rewrite makeDir_unfold. cbv zeta.
  destruct (os.stat_result w path).2 as [e|].
  - split; [split|split].
    + intros (e' & w' & H). exists e. split; [done|]. by destruct e.
    + intros (e0 & _ & Hn). destruct e; try discriminate Hn; eauto.
    + intros Hn. destruct e; try discriminate Hn.
      rewrite Mkdir_returns. eauto.
    + done.
  - split; [split|split]; try done.
    + by intros (e' & w' & H).
    + by intros (e' & H & _).
Qed.

(** C7. [makeDir] is idempotent: after a call that returns, a second call
    on the same path returns too and leaves the file system as the first
    call left it. *)
Theorem makeDir_idempotent (path : string) (w w' : World) :
  makeDir path w = Ok tt w' →
  ∃ w'', makeDir path w' = Ok tt w''
         ∧ nodes w'' = nodes w' ∧ faults w'' = faults w' ∧ fds w'' = fds w'.
Proof.
  rewrite !makeDir_unfold. cbv zeta.
  destruct (os.stat_result w path).2 as [e|] eqn:Hs.
  2:{ intros [= <-].
      rewrite (stat_result_ext _ w path), Hs by done. eauto. }
  destruct e; try done.
  destruct (os.mkdir_result _ path) as [e|] eqn:Hm; intros [= <-].
  - rewrite (stat_result_ext _ w path), Hs by done.
    rewrite (mkdir_result_ext _ (log (EvStat path (Some ENOENT)) w) path), Hm
      by done.
    eauto.
  - set (d := Dir _). apply mkdir_result_nonempty in Hm as Hne.
    destruct (stat_after_mkdir w path d Hne Hs) as [Hs'|Hs'];
      rewrite (stat_result_ext _ (with_nodes (<[path:=d]> (nodes w)) w) path),
        Hs' by done;
      [eauto|].
    destruct (mkdir_after_mkdir w path d Hne) as [e He].
    rewrite (mkdir_result_ext _ (with_nodes (<[path:=d]> (nodes w)) w) path),
      He by done.
    eauto.
Qed.

(** The first run creates the directory; the second call finds it. *)
Lemma makeDir_idempotent_witness :
  ∃ w' w'', makeDir tfDir fresh_world = Ok tt w'
            ∧ nodes w' = {["terraform" := Dir 493]}
            ∧ makeDir tfDir w' = Ok tt w''
            ∧ nodes w'' = nodes w' ∧ faults w'' = faults w'
            ∧ fds w'' = fds w'.
Proof.
  eexists.
  destruct (makeDir_idempotent tfDir fresh_world _ eq_refl)
    as (w'' & H1 & H2).
  exists w''. split; [reflexivity|]. split; [reflexivity|]. by split.
Defined.

(** C2. With a read-only working directory, [os.Mkdir] inside [makeDir]
    returns "permission denied", and [makeDir] returns normally: the
    error is dropped, no panic. *)
Theorem makeDir_drops_Mkdir_error :
  ∃ w', makeDir tfDir readonly_world = Ok tt w'
        ∧ syscalls w' = [EvStat "terraform" (Some ENOENT);
                         EvMkdir "terraform" 2147484141 (Some EACCES)]
        ∧ nodes w' = ∅.
Proof. eexists. split; [reflexivity|]. by split. Qed.

(** In general: no error of [os.Mkdir] makes [makeDir] panic. *)
Lemma makeDir_never_panics_on_Mkdir path w e :
  (os.stat_result w path).2 = Some ENOENT →
  os.mkdir_result (log (EvStat path (Some ENOENT)) w) path = Some e →
  makeDir path w
  = Ok tt (log (EvMkdir path (N.lor os.ModeDir 493) (Some e))
             (log (EvStat path (Some ENOENT)) w)).
Proof. intros Hs Hm. rewrite makeDir_unfold. cbv zeta. by rewrite Hs, Hm. Qed.

(** The three ways through [makeDir], run. *)
Example makeDir_creates :
  ∃ w', makeDir tfDir fresh_world = Ok tt w'
        ∧ nodes w' = {["terraform" := Dir 493]}
        ∧ syscalls w' = [EvStat "terraform" (Some ENOENT);
                         EvMkdir "terraform" 2147484141 None].
Proof. eexists. split; [reflexivity|]. by split. Qed.

Example makeDir_finds :
  makeDir tfDir rerun_world
  = Ok tt (log (EvStat "terraform" None) rerun_world).
Proof. reflexivity. Qed.

Example makeDir_panics :
  makeDir tfDir denied_world
  = Panic EACCES (log (EvStat "terraform" (Some EACCES)) denied_world).
Proof. reflexivity. Qed.

(** ** createFile *)

Lemma createFile_unfold fileName w :
  createFile fileName w =
    let name := "terraform/" +:+ fileName in
    match os.create_result w name with
    | Some e => Panic e (log (EvCreate name (Some e)) w)
    | None => Ok (Some (length (fds w))) (created name w)
    end.
Proof.
  unfold createFile, bind, os.Create. cbv zeta.
  change (tfDir +:+ "/" +:+ fileName) with ("terraform/" +:+ fileName).
  by destruct (os.create_result w _).
Qed.

Lemma write_at_start data : os.write_at 0 data [] = data.
Proof. unfold os.write_at. cbn. by rewrite drop_nil, (right_id_L [] app). Qed.

(** One [Write] through the handle [os.Create] has just returned, with
    the generator moved in between. *)
Lemma Write_after_Create name b w1 p :
  os.File_Write (Some (length (fds w1))) b (with_rand_pos p (created name w1))
  = Ok (os.write_result w1 name b) (written name b p w1).
Proof.
  unfold os.File_Write. cbn [fds created log with_fds with_nodes with_rand_pos].
  rewrite list_lookup_middle by done. cbn [of_closed of_name of_offset nodes].
  change (nodes (with_rand_pos p (created name w1)))
    with (<[name := RegularFile []]> (nodes w1)).
  change (os.write_result (with_rand_pos p (created name w1)) name b)
    with (os.write_result w1 name b).
  rewrite lookup_insert_eq, write_at_start, insert_insert_eq.
  rewrite insert_app_r_alt, Nat.sub_diag by done.
  unfold written, created, log, with_fds, with_nodes, with_rand_pos.
  cbn. by rewrite <-(assoc_L app).
Qed.

(** * The emitters *)

(** ** The loops of the Locals Emitter *)

Lemma field_pairs_S src p k :
  field_pairs src p (S k) =
    (field_name src p, field_crn src p) :: field_pairs src (S (S p)) k.
Proof.
  unfold field_pairs. rewrite <-cons_seq, <-fmap_S_seq. cbn [fmap list_fmap].
  rewrite Nat.add_0_r. f_equal. rewrite <-list_fmap_compose.
  apply list_fmap_ext. intros _ j _. unfold compose.
  by replace (p + 2 * S j) with (S (S p) + 2 * j) by lia.
Qed.

Lemma secret_entries_S src p i k :
  secret_entries src p i (S k) =
    ("secret-" +:+ pretty i,
     cty.ObjectVal {["fields" := cty.ObjectVal (fields_of src p)]})
      :: secret_entries src (p + 10) (i + 1) k.
Proof.
  unfold secret_entries. rewrite <-cons_seq, <-fmap_S_seq. cbn [fmap list_fmap].
  rewrite Nat.add_0_r, Z.add_0_r. f_equal. rewrite <-list_fmap_compose.
  apply list_fmap_ext. intros _ j _. unfold compose.
  replace (p + 10 * S j) with (p + 10 + 10 * j) by lia.
  by replace (i + Z.of_nat (S j))%Z with (i + 1 + Z.of_nat j)%Z by lia.
Qed.

(** The inner loop with [k] iterations to go: it returns when it has more
    fuel than that, having put the next [k] pairs and drawn [2 * k]
    numbers. *)
Lemma fieldsLoop_from (k fuel : nat) (i : Z) m w :
  i = (5 - Z.of_nat k)%Z → (k ≤ 5)%nat → k < fuel →
  while fuel (fun '(indexField, _) => (indexField <? 5)%Z) fieldsStep (i, m) w
  = Ok (5%Z, put_all (field_pairs (rand_src w) (rand_pos w) k) m)
       (with_rand_pos (rand_pos w + 2 * k) w).
Proof.
  revert fuel i m w.
  induction k as [|k IH]; intros [|fuel] i m w -> Hk Hf; try lia.
  - cbn [while Z.of_nat]. cbn. by rewrite Nat.add_0_r, with_rand_pos_id.
  - cbn [while].
    assert ((5 - Z.of_nat (S k) <? 5)%Z = true) as ->
      by (apply Z.ltb_lt; lia).
    unfold bind at 1. unfold fieldsStep at 1. unfold bind, rand.Int, ret.
    cbn [rand_src rand_pos with_rand_pos].
    assert (int_add (5 - Z.of_nat (S k)) 1 = (5 - Z.of_nat k)%Z) as ->
      by (unfold int_add; rewrite int_wrap_small; lia).
    rewrite (IH fuel); [|lia|lia|lia].
    rewrite field_pairs_S.
    cbn [rand_src rand_pos with_rand_pos put_all foldl fst snd].
    f_equal. unfold with_rand_pos; cbn. f_equal. lia.
Qed.

Lemma fieldsLoop_run w :
  fieldsLoop 0 ∅ w =
    Ok (5%Z, fields_of (rand_src w) (rand_pos w))
       (with_rand_pos (rand_pos w + 10) w).
Proof. unfold fieldsLoop. rewrite (fieldsLoop_from 5); [done|done|lia|lia]. Qed.

Lemma secretsLoop_from (k fuel : nat) (i : Z) m w :
  i = (5 - Z.of_nat k)%Z → (k ≤ 5)%nat → k < fuel →
  while fuel (fun '(indexSecret, _) => (indexSecret <? 5)%Z) secretsStep
    (i, m) w
  = Ok (5%Z, put_all (secret_entries (rand_src w) (rand_pos w) i k) m)
       (with_rand_pos (rand_pos w + 10 * k) w).
Proof.
  revert fuel i m w.
  induction k as [|k IH]; intros [|fuel] i m w -> Hk Hf; try lia.
  - cbn [while Z.of_nat]. cbn. by rewrite Nat.add_0_r, with_rand_pos_id.
  - cbn [while].
    assert ((5 - Z.of_nat (S k) <? 5)%Z = true) as ->
      by (apply Z.ltb_lt; lia).
    unfold bind at 1. unfold secretsStep at 1. unfold bind at 1.
    rewrite fieldsLoop_run. unfold ret.
    assert (int_add (5 - Z.of_nat (S k)) 1 = (5 - Z.of_nat k)%Z) as ->
      by (unfold int_add; rewrite int_wrap_small; lia).
    rewrite (IH fuel); [|lia|lia|lia].
    rewrite secret_entries_S.
    cbn [rand_src rand_pos with_rand_pos put_all foldl fst snd].
    replace (5 - Z.of_nat (S k) + 1)%Z with (5 - Z.of_nat k)%Z by lia.
    f_equal. unfold with_rand_pos; cbn. f_equal. lia.
Qed.

(** Lines 46 to 59 of main.go: the loops return, with the Secrets Mapping
    of the fifty numbers drawn. *)
Lemma secretsLoop_run w :
  secretsLoop 0 ∅ w =
    Ok (5%Z, secrets_of (rand_src w) (rand_pos w))
       (with_rand_pos (rand_pos w + 50) w).
Proof. unfold secretsLoop. rewrite (secretsLoop_from 5); [done|done|lia|lia]. Qed.

(** ** Maps built by successive assignments *)

Lemma put_all_list_to_map {V} (kvs : list (string * V)) (m : gmap string V) :
  put_all kvs m = list_to_map (reverse kvs) ∪ m.
Proof.
  revert m. induction kvs as [|[k v] kvs IH]; intros m.
  - cbn. by rewrite (left_id_L ∅ (∪)).
  - cbn [put_all foldl fst snd]. fold (put_all kvs (<[k:=v]> m)). rewrite IH.
    rewrite reverse_cons, list_to_map_app. cbn [list_to_map foldr uncurry].
    by rewrite insert_empty, <-(assoc_L (∪)), <-insert_union_singleton_l.
Qed.

Lemma dom_put_all {V} (kvs : list (string * V)) :
  dom (put_all kvs ∅) = list_to_set kvs.*1.
Proof.
  rewrite put_all_list_to_map, (right_id_L ∅ (∪)), dom_list_to_map_L.
  rewrite fmap_reverse. apply set_eq. intros k.
  by rewrite !elem_of_list_to_set, elem_of_reverse.
Qed.

Lemma lookup_put_all_Some {V} (kvs : list (string * V)) k v :
  put_all kvs ∅ !! k = Some v → (k, v) ∈ kvs.
Proof.
  rewrite put_all_list_to_map, (right_id_L ∅ (∪)).
  intros H%elem_of_list_to_map_2. by apply elem_of_reverse.
Qed.

Lemma lookup_put_all_NoDup {V} (kvs : list (string * V)) k v :
  NoDup kvs.*1 → (k, v) ∈ kvs → put_all kvs ∅ !! k = Some v.
Proof.
  intros Hnd Hin. rewrite put_all_list_to_map, (right_id_L ∅ (∪)).
  apply elem_of_list_to_map_1; [|by apply elem_of_reverse].
  by rewrite fmap_reverse, reverse_Permutation.
Qed.

(** ** Counting the keys of a list *)

Section set_of_list.

Implicit Types l : list string.

Lemma size_list_to_set_le l :
  (size (list_to_set l : gset string) ≤ length l)%nat.
Proof.
  induction l as [|a l IH]; [done|].
  rewrite list_to_set_cons, size_union_alt, size_singleton. cbn [length].
  assert (size (list_to_set l ∖ {[a]} : gset string)
          ≤ size (list_to_set l : gset string))%nat
    as Hsub by (apply subseteq_size; set_solver).
  lia.
Qed.

Lemma size_list_to_set_NoDup l :
  size (list_to_set l : gset string) = length l ↔ NoDup l.
Proof.
  split; [|apply size_list_to_set].
  induction l as [|a l IH]; [constructor|].
  rewrite list_to_set_cons. cbn [length]. intros Hs.
  pose proof (size_list_to_set_le l) as Hle.
  destruct (decide (a ∈ l)) as [Hin|Hin].
  - assert ({[a]} ∪ list_to_set l = (list_to_set l : gset string)) as Heq
      by (apply set_eq; intros x;
          rewrite elem_of_union, elem_of_singleton, !elem_of_list_to_set;
          naive_solver).
    rewrite Heq in Hs. lia.
  - constructor; [done|]. apply IH.
    rewrite size_union, size_singleton in Hs; [lia|].
    apply disjoint_singleton_l. by rewrite elem_of_list_to_set.
Qed.

Lemma size_list_to_set_pos a l :
  (1 ≤ size (list_to_set (a :: l) : gset string))%nat.
Proof. rewrite list_to_set_cons, size_union_alt, size_singleton. lia. Qed.

End set_of_list.

Lemma field_pairs_keys src p :
  (field_pairs src p 5).*1
  = (fun z : Z => "field-" +:+ pretty z) <$> name_draws src p.
Proof. done. Qed.

Lemma size_fields_of src p :
  size (fields_of src p)
  = size (list_to_set (field_pairs src p 5).*1 : gset string).
Proof. unfold fields_of. by rewrite <-dom_put_all, size_dom. Qed.

(** A Fields Map has between one and five pairs, and five exactly when
    the five numbers drawn for its field names are pairwise distinct. *)
Lemma fields_of_cardinality src p :
  (1 ≤ size (fields_of src p) ≤ 5)%nat
  ∧ (size (fields_of src p) = 5%nat ↔ NoDup (name_draws src p)).
Proof.
  rewrite size_fields_of. split; [split|].
  - apply size_list_to_set_pos.
  - exact (size_list_to_set_le (field_pairs src p 5).*1).
  - rewrite field_pairs_keys.
    rewrite <-(NoDup_fmap (fun z : Z => "field-" +:+ pretty z)
                 (name_draws src p)).
    exact (size_list_to_set_NoDup _).
Qed.

(** The five entry names are distinct. *)
Lemma secret_names_NoDup src p : NoDup (secret_entries src p 0 5).*1.
Proof.
  change (secret_entries src p 0 5).*1
    with ["secret-0"; "secret-1"; "secret-2"; "secret-3"; "secret-4"].
  compute_done.
Qed.

Lemma size_secrets_of src p : size (secrets_of src p) = 5%nat.
Proof.
  unfold secrets_of. rewrite <-size_dom, dom_put_all.
  by rewrite size_list_to_set by apply secret_names_NoDup.
Qed.

Lemma lookup_secrets_of src p (i : nat) :
  i < 5 →
  secrets_of src p !! ("secret-" +:+ pretty (Z.of_nat i))
  = Some (cty.ObjectVal
            {["fields" := cty.ObjectVal (fields_of src (p + 10 * i))]}).
Proof.
  intros Hi. apply lookup_put_all_NoDup; [apply secret_names_NoDup|].
  unfold secret_entries. apply list_elem_of_fmap. exists i.
  split; [done|]. apply elem_of_seq. lia.
Qed.

Lemma lookup_secrets_of_Some src p name v :
  secrets_of src p !! name = Some v →
  ∃ i : nat,
    i < 5 ∧ name = "secret-" +:+ pretty (Z.of_nat i)
    ∧ v = cty.ObjectVal
            {["fields" := cty.ObjectVal (fields_of src (p + 10 * i))]}.
Proof.
  intros H%lookup_put_all_Some. unfold secret_entries in H.
  apply list_elem_of_fmap in H as (i & [= -> ->] & Hi).
  apply elem_of_seq in Hi. exists i. split; [lia|done].
Qed.

(** ** The emitters by cases on the two utilities *)

Section Emitters.

Context (Bytes : hclwrite.File → list byte).

Lemma createTerraformLocals_unfold w :
  createTerraformLocals Bytes w =
    match makeDir tfDir w with
    | Ok _ w1 =>
        match os.create_result w1 "terraform/locals.tf" with
        | Some e =>
            Panic e (log (EvCreate "terraform/locals.tf" (Some e)) w1)
        | None =>
            Ok tt (written "terraform/locals.tf"
                     (Bytes (locals_document
                               (secrets_of (rand_src w1) (rand_pos w1))))
                     (rand_pos w1 + 50) w1)
        end
    | Panic e w1 => Panic e w1
    | OutOfFuel => OutOfFuel
    end.
Proof.
  unfold createTerraformLocals. unfold bind at 1.
  destruct (makeDir tfDir w) as [[] w1|e w1|]; try done.
  unfold bind at 1. rewrite createFile_unfold. cbv zeta.
  change ("terraform/" +:+ tfLocalsFileName) with "terraform/locals.tf".
  destruct (os.create_result w1 _); [done|].
  cbn [hclwrite.AppendNewBlock]. unfold bind at 1. rewrite secretsLoop_run.
  unfold bind, ret.
  change (rand_src (created "terraform/locals.tf" w1)) with (rand_src w1).
  change (rand_pos (created "terraform/locals.tf" w1)) with (rand_pos w1).
  change (os.File_Write _ _ _)
    with (os.File_Write (Some (length (fds w1)))
            (Bytes (locals_document (secrets_of (rand_src w1) (rand_pos w1))))
            (with_rand_pos (rand_pos w1 + 50)
               (created "terraform/locals.tf" w1))).
  by rewrite Write_after_Create.
Qed.

Lemma createTerraformMain_unfold w :
  createTerraformMain Bytes w =
    match makeDir tfDir w with
    | Ok _ w1 =>
        match os.create_result w1 "terraform/main.tf" with
        | Some e => Panic e (log (EvCreate "terraform/main.tf" (Some e)) w1)
        | None =>
            Ok tt (written "terraform/main.tf"
                     (Bytes (resource_document (getenv w1 "CLUSTER_ID")
                                               (getenv w1 "NAMESPACE")))
                     (rand_pos w1) w1)
        end
    | Panic e w1 => Panic e w1
    | OutOfFuel => OutOfFuel
    end.
Proof.
  unfold createTerraformMain. unfold bind at 1.
  destruct (makeDir tfDir w) as [[] w1|e w1|]; try done.
  unfold bind at 1. rewrite createFile_unfold. cbv zeta.
  change ("terraform/" +:+ tfMainFileName) with "terraform/main.tf".
  destruct (os.create_result w1 _); [done|].
  unfold bind, os.Getenv, ret.
  change (_ = ?rhs)
    with (match os.File_Write (Some (length (fds w1)))
                  (Bytes (resource_document (getenv w1 "CLUSTER_ID")
                                            (getenv w1 "NAMESPACE")))
                  (with_rand_pos (rand_pos w1)
                     (created "terraform/main.tf" w1))
          with
          | Ok _ w2 => Ok tt w2
          | Panic e w2 => Panic e w2
          | OutOfFuel => OutOfFuel
          end = rhs).
  by rewrite Write_after_Create.
Qed.

(** Neither emitter, nor the program, ever runs out of fuel: the loops
    are given enough. *)
Lemma makeDir_returns_or_panics path w : makeDir path w ≠ OutOfFuel.
Proof.
  rewrite makeDir_unfold. cbv zeta.
  destruct (os.stat_result w path).2 as [[]|]; done.
Qed.

Lemma createTerraformLocals_returns_or_panics w :
  createTerraformLocals Bytes w ≠ OutOfFuel.
Proof.
  rewrite createTerraformLocals_unfold.
  pose proof (makeDir_returns_or_panics tfDir w).
  destruct (makeDir tfDir w); [|done|done].
  by destruct (os.create_result _ _).
Qed.

Lemma createTerraformMain_returns_or_panics w :
  createTerraformMain Bytes w ≠ OutOfFuel.
Proof.
  rewrite createTerraformMain_unfold.
  pose proof (makeDir_returns_or_panics tfDir w).
  destruct (makeDir tfDir w); [|done|done].
  by destruct (os.create_result _ _).
Qed.

Lemma main_returns_or_panics w : main Bytes w ≠ OutOfFuel.
Proof.
  unfold main, bind.
  pose proof (createTerraformLocals_returns_or_panics w).
  destruct (createTerraformLocals Bytes w); [|done|done].
  apply createTerraformMain_returns_or_panics.
Qed.

(** X1. Every run of the program terminates: [main] returns or panics,
    in every world; the loops never need more fuel than they are given. *)
Theorem main_terminates w :
  (∃ w', main Bytes w = Ok tt w') ∨ (∃ e w', main Bytes w = Panic e w').
Proof.
  pose proof (main_returns_or_panics w) as Hfuel.
  destruct (main Bytes w) as [[] w'|e w'|]; [left|right|done]; eauto.
Qed.

(** A run of an emitter that returns went through [makeDir] and a
    successful [os.Create]. *)
Lemma createTerraformLocals_Ok w w' :
  createTerraformLocals Bytes w = Ok tt w' →
  ∃ w1, makeDir tfDir w = Ok tt w1
        ∧ os.create_result w1 "terraform/locals.tf" = None
        ∧ w' = written "terraform/locals.tf"
                 (Bytes (locals_document
                           (secrets_of (rand_src w) (rand_pos w))))
                 (rand_pos w + 50) w1.
Proof.
  rewrite createTerraformLocals_unfold.
  destruct (makeDir tfDir w) as [[] w1|e w1|] eqn:Hmk; try done.
  destruct (os.create_result w1 _) eqn:Hc; [done|]. intros [= <-].
  apply makeDir_frame in Hmk as Hfr. destruct Hfr as (_ & -> & -> & _).
  eauto.
Qed.

Lemma createTerraformMain_Ok w w' :
  createTerraformMain Bytes w = Ok tt w' →
  ∃ w1, makeDir tfDir w = Ok tt w1
        ∧ os.create_result w1 "terraform/main.tf" = None
        ∧ w' = written "terraform/main.tf"
                 (Bytes (resource_document (getenv w "CLUSTER_ID")
                                           (getenv w "NAMESPACE")))
                 (rand_pos w) w1.
Proof.
  rewrite createTerraformMain_unfold.
  destruct (makeDir tfDir w) as [[] w1|e w1|] eqn:Hmk; try done.
  destruct (os.create_result w1 _) eqn:Hc; [done|]. intros [= <-].
  apply makeDir_frame in Hmk as Hfr. destruct Hfr as (Henv & _ & -> & _).
  unfold getenv. rewrite Henv. eauto.
Qed.

Lemma main_Ok w w' :
  main Bytes w = Ok tt w' →
  ∃ wm, createTerraformLocals Bytes w = Ok tt wm
        ∧ createTerraformMain Bytes wm = Ok tt w'.
Proof.
  unfold main, bind.
  destruct (createTerraformLocals Bytes w) as [[] wm| |]; [eauto|done|done].
Qed.

End Emitters.

Lemma write_result_ext w1 w2 name b :
  faults w1 = faults w2 → os.write_result w1 name b = os.write_result w2 name b.
Proof. unfold os.write_result. by intros ->. Qed.

Lemma last_written name b p w1 :
  last (syscalls (written name b p w1))
  = Some (EvWrite name b (os.write_result w1 name b).1
            (os.write_result w1 name b).2).
Proof.
  cbn [written syscalls].
  change [EvCreate name None;
          EvWrite name b (os.write_result w1 name b).1
            (os.write_result w1 name b).2]
    with ([EvCreate name None]
            ++ [EvWrite name b (os.write_result w1 name b).1
                  (os.write_result w1 name b).2])%list.
  by rewrite (assoc_L app), last_snoc.
Qed.

(** * The claims about the emitters *)

(** C1, as the code has it.  The loops of [createTerraformLocals] always
    return a Secrets Mapping of exactly five entries, [secret-0] to
    [secret-4].  Each entry wraps a Fields Map of at least one and at
    most five pairs; it has five exactly when the five numbers drawn for
    its field names are pairwise distinct. *)
Theorem secretsLoop_cardinality (w : World) :
  ∃ secretsMap w',
    secretsLoop 0 ∅ w = Ok (5%Z, secretsMap) w'
    ∧ size secretsMap = 5
    ∧ ∀ name v,
        secretsMap !! name = Some v →
        ∃ (i : nat) crnMap,
          i < 5
          ∧ name = "secret-" +:+ pretty (Z.of_nat i)
          ∧ v = cty.ObjectVal {["fields" := cty.ObjectVal crnMap]}
          ∧ (1 ≤ size crnMap ≤ 5)%nat
          ∧ (size crnMap = 5
             ↔ NoDup (name_draws (rand_src w) (rand_pos w + 10 * i))).
Proof.
  eexists _, _. split; [apply secretsLoop_run|].
  split; [apply size_secrets_of|].
  intros name v (i & Hi & -> & ->)%lookup_secrets_of_Some.
  exists i, (fields_of (rand_src w) (rand_pos w + 10 * i)).
  destruct (fields_of_cardinality (rand_src w) (rand_pos w + 10 * i)).
  done.
Qed.

(** C1 as stated fails when the generator repeats a number: [secret-0]
    then has four fields. *)
Lemma cardinality_5x5_fails : ¬ cardinality_5x5 collision_world.
Proof.
  intros (m & w' & Hrun & _ & Hall).
  rewrite secretsLoop_run in Hrun. injection Hrun as <- _.
  specialize (Hall "secret-0" _ _
                (lookup_secrets_of _ _ 0 ltac:(lia))
                (lookup_singleton_eq _ _)).
  apply fields_of_cardinality in Hall.
  apply (bool_decide_pack _) in Hall. by vm_compute in Hall.
Qed.

Example collision_world_secret_0 :
  size (fields_of (rand_src collision_world) 0) = 4.
Proof. by vm_compute. Qed.

(** ** Strings in cty values *)

(** Normalization leaves ASCII text as it is. *)
Lemma NFC_String_ascii s : norm.is_ascii s = true → norm.NFC_String s = s.
Proof. unfold norm.NFC_String. by intros ->. Qed.

Lemma StringVal_ascii s :
  norm.is_ascii s = true → cty.StringVal s = cty.Str s.
Proof.
  intros Ha. unfold cty.StringVal, cty.NormalizeString.
  by rewrite NFC_String_ascii.
Qed.

Lemma is_ascii_app s1 s2 :
  norm.is_ascii (s1 +:+ s2) = norm.is_ascii s1 && norm.is_ascii s2.
Proof.
  unfold norm.is_ascii. induction s1 as [|a s1 IH]; [done|].
  simpl. by rewrite IH, andb_assoc.
Qed.

Lemma is_ascii_pretty_N_go x s :
  norm.is_ascii s = true → norm.is_ascii (pretty_N_go x s) = true.
Proof.
  revert s. induction (N.lt_wf_0 x) as [x _ IH]; intros s Hs.
  assert (x = 0 ∨ 0 < x)%N as [->|?] by lia; [by rewrite pretty_N_go_0|].
  rewrite pretty_N_go_step by done. apply IH; [by apply N.div_lt|].
  unfold norm.is_ascii in *.
  cbn [String.list_ascii_of_string forallb]. rewrite Hs, andb_true_r.
  unfold pretty_N_char. by repeat case_match.
Qed.

(** A number printed in decimal is ASCII. *)
Lemma is_ascii_pretty_Z (z : Z) : norm.is_ascii (pretty z) = true.
Proof.
  assert (∀ x : positive, norm.is_ascii (pretty x) = true) as Hpos.
  { intros x. unfold pretty, pretty_positive, pretty, pretty_N.
    case_decide; [done|]. by apply is_ascii_pretty_N_go. }
  destruct z as [|x|x]; [done|apply Hpos|].
  unfold pretty, pretty_Z. by rewrite is_ascii_app, Hpos.
Qed.

(** The values that the Locals Emitter synthesizes are ASCII: they are
    held as they were written. *)
Lemma field_crn_verbatim src p :
  field_crn src p
  = cty.Str ("crn:v1:bluemix:" +:+ pretty (src (S p) mod 2 ^ 63)%Z).
Proof.
  unfold field_crn. apply StringVal_ascii.
  by rewrite is_ascii_app, is_ascii_pretty_Z.
Qed.

(** The letter e and the combining acute accent become one character,
    U+00E9, the two bytes c3 a9; a character that is composed already
    stays; bytes that are not UTF-8 stay as they are. *)
Example NFC_String_composes :
  norm.NFC_String e_acute_combining = String.string_of_list_byte [xc3; xa9].
Proof. by vm_compute. Qed.

Example NFC_String_composed :
  norm.NFC_String (String.string_of_list_byte [xc3; xa9])
  = String.string_of_list_byte [xc3; xa9].
Proof. by vm_compute. Qed.

Example NFC_String_not_utf8 :
  norm.NFC_String (String.string_of_list_byte [xff; x65; xcc; x81; xc3])
  = String.string_of_list_byte [xff; xc3; xa9; xc3].
Proof. by vm_compute. Qed.

Section EmitterClaims.

Context (Bytes : hclwrite.File → list byte).

(** C3. Once the directory step returns and the file is created, the
    Locals Emitter returns, and the bytes it hands to [Write] are the
    serialization of a document with exactly one item: a block [locals]
    with no label, whose body is the single attribute [secrets], bound
    to an object value.  The keys of that object are [secret-0] to
    [secret-4], and [secret-i] maps to an object with the single key
    [fields], bound to the Fields Map of the pairs synthesized for
    entry [i]. *)
Theorem createTerraformLocals_document (w w1 : World) :
  makeDir tfDir w = Ok tt w1 →
  os.create_result w1 "terraform/locals.tf" = None →
  ∃ secretsMap w' n err,
    createTerraformLocals Bytes w = Ok tt w'
    ∧ last (syscalls w')
      = Some (EvWrite "terraform/locals.tf"
                (Bytes [hclwrite.Block "locals" []
                          [hclwrite.Attribute "secrets"
                             (hclwrite.ExprValue
                                (cty.ObjectVal secretsMap))]])
                n err)
    ∧ dom secretsMap
      = list_to_set
          ["secret-0"; "secret-1"; "secret-2"; "secret-3"; "secret-4"]
    ∧ ∀ i : nat,
        i < 5 →
        secretsMap !! ("secret-" +:+ pretty (Z.of_nat i))
        = Some (cty.ObjectVal
                  {["fields" :=
                      cty.ObjectVal
                        (put_all
                           (field_pairs (rand_src w)
                              (rand_pos w + 10 * i) 5) ∅)]}).
Proof.
  intros Hmk Hc.
  apply makeDir_frame in Hmk as Hfr. destruct Hfr as (_ & Hsrc & Hpos & _).
  exists (secrets_of (rand_src w) (rand_pos w)). eexists _, _, _.
  split; [|split; [|split]].
  - rewrite createTerraformLocals_unfold, Hmk, Hc, Hsrc, Hpos. reflexivity.
  - apply last_written.
  - unfold secrets_of. by rewrite dom_put_all.
  - intros i Hi. by apply lookup_secrets_of.
Qed.

(** C4. Once the directory step returns and the file is created, the
    Resource Emitter returns, and the bytes it hands to [Write] are the
    serialization of a document with one item, the resource block.  In
    its body [for_each] is the traversal written [local.secrets]; its
    only nested block is [dynamic "fields"], whose only attribute is
    [for_each], the traversal written [local.secrets[each.key].fields];
    the only block in that is [content], whose body sets [field_name] to
    [fields.key] and [crn] to [fields.value]. *)
Theorem createTerraformMain_structure (w w1 : World) :
  makeDir tfDir w = Ok tt w1 →
  os.create_result w1 "terraform/main.tf" = None →
  ∃ w' resourceBody dynamicBody t_each t_dyn t_name t_crn n err,
    createTerraformMain Bytes w = Ok tt w'
    ∧ last (syscalls w')
      = Some (EvWrite "terraform/main.tf"
                (Bytes [hclwrite.Block "resource"
                          ["ibm_container_ingress_secret_opaque";
                           "ingress-secret"]
                          resourceBody])
                n err)
    ∧ hclwrite.GetAttribute resourceBody "for_each"
      = Some (hclwrite.ExprTraversal t_each)
    ∧ hclwrite.traversal_text t_each = "local.secrets"
    ∧ hclwrite.Blocks resourceBody = [("dynamic", ["fields"], dynamicBody)]
    ∧ hclwrite.Attributes dynamicBody
      = [("for_each", hclwrite.ExprTraversal t_dyn)]
    ∧ hclwrite.traversal_text t_dyn = "local.secrets[each.key].fields"
    ∧ hclwrite.Blocks dynamicBody
      = [("content", [],
          [hclwrite.Attribute "field_name" (hclwrite.ExprTraversal t_name);
           hclwrite.Attribute "crn" (hclwrite.ExprTraversal t_crn)])]
    ∧ hclwrite.traversal_text t_name = "fields.key"
    ∧ hclwrite.traversal_text t_crn = "fields.value".
Proof.
  intros Hmk Hc. eexists _, _, _, _, _, _, _, _, _.
  split; [|split].
  - rewrite createTerraformMain_unfold, Hmk, Hc. reflexivity.
  - apply last_written.
  - cbn. by repeat split.
Qed.


End EmitterClaims.

(** Witnesses: a first run, from the empty working directory. *)
Lemma createTerraformLocals_document_witness :
  ∃ secretsMap w' n err,
    createTerraformLocals sample_Bytes fresh_world = Ok tt w'
    ∧ last (syscalls w')
      = Some (EvWrite "terraform/locals.tf"
                (sample_Bytes
                   [hclwrite.Block "locals" []
                      [hclwrite.Attribute "secrets"
                         (hclwrite.ExprValue (cty.ObjectVal secretsMap))]])
                n err)
    ∧ dom secretsMap
      = list_to_set
          ["secret-0"; "secret-1"; "secret-2"; "secret-3"; "secret-4"]
    ∧ ∀ i : nat,
        i < 5 →
        secretsMap !! ("secret-" +:+ pretty (Z.of_nat i))
        = Some (cty.ObjectVal
                  {["fields" :=
                      cty.ObjectVal
                        (put_all
                           (field_pairs (rand_src fresh_world)
                              (rand_pos fresh_world + 10 * i) 5) ∅)]}).
Proof.
  exact (createTerraformLocals_document sample_Bytes fresh_world _
           eq_refl eq_refl).
Defined.

Lemma createTerraformMain_structure_witness :
  ∃ w' resourceBody dynamicBody t_each t_dyn t_name t_crn n err,
    createTerraformMain sample_Bytes fresh_world = Ok tt w'
    ∧ last (syscalls w')
      = Some (EvWrite "terraform/main.tf"
                (sample_Bytes
                   [hclwrite.Block "resource"
                      ["ibm_container_ingress_secret_opaque";
                       "ingress-secret"]
                      resourceBody])
                n err)
    ∧ hclwrite.GetAttribute resourceBody "for_each"
      = Some (hclwrite.ExprTraversal t_each)
    ∧ hclwrite.traversal_text t_each = "local.secrets"
    ∧ hclwrite.Blocks resourceBody = [("dynamic", ["fields"], dynamicBody)]
    ∧ hclwrite.Attributes dynamicBody
      = [("for_each", hclwrite.ExprTraversal t_dyn)]
    ∧ hclwrite.traversal_text t_dyn = "local.secrets[each.key].fields"
    ∧ hclwrite.Blocks dynamicBody
      = [("content", [],
          [hclwrite.Attribute "field_name" (hclwrite.ExprTraversal t_name);
           hclwrite.Attribute "crn" (hclwrite.ExprTraversal t_crn)])]
    ∧ hclwrite.traversal_text t_name = "fields.key"
    ∧ hclwrite.traversal_text t_crn = "fields.value".
Proof.
  exact (createTerraformMain_structure sample_Bytes fresh_world _
           eq_refl eq_refl).
Defined.



(** The document of that run: the literal of [cluster] is the composed
    character. *)
Example cluster_of_combining_world :
  hclwrite.GetAttribute
    (match resource_document (getenv combining_world "CLUSTER_ID")
             (getenv combining_world "NAMESPACE") with
     | [hclwrite.Block _ _ body] => body
     | _ => []
     end) "cluster"
  = Some (hclwrite.ExprValue
            (cty.Str (String.string_of_list_byte [xc3; xa9]))).
Proof. by vm_compute. Qed.

(** The scenario of the specification: CLUSTER_ID=prod-1234 and
    NAMESPACE=ns-a. *)
Example cluster_and_namespace_of_fresh_world :
  hclwrite.GetAttribute
    (match resource_document (getenv fresh_world "CLUSTER_ID")
             (getenv fresh_world "NAMESPACE") with
     | [hclwrite.Block _ _ body] => body
     | _ => []
     end) "cluster"
  = Some (hclwrite.ExprValue (cty.Str "prod-1234"))
  ∧ hclwrite.GetAttribute
      (match resource_document (getenv fresh_world "CLUSTER_ID")
               (getenv fresh_world "NAMESPACE") with
       | [hclwrite.Block _ _ body] => body
       | _ => []
       end) "secret_namespace"
    = Some (hclwrite.ExprValue (cty.Str "ns-a")).
Proof. by vm_compute. Qed.

Section ProgramClaims.

Context (Bytes : hclwrite.File → list byte).

Lemma take_write_result w name b :
  (os.write_result w name b).2 = None →
  take (os.write_result w name b).1 b = b.
Proof.
  unfold os.write_result. destruct (write_fault _ _) as [[k e]|]; [done|].
  intros _. by apply take_ge.
Qed.

(** A run of [main] that returns, taken apart: the world it ends in is
    the one the Resource Emitter's [Write] left, on top of a world that
    still holds what the Locals Emitter wrote. *)
Lemma main_run (w w' : World) :
  main Bytes w = Ok tt w' →
  let b1 := Bytes (locals_document (secrets_of (rand_src w) (rand_pos w))) in
  let b2 :=
    Bytes (resource_document (getenv w "CLUSTER_ID") (getenv w "NAMESPACE")) in
  let r1 := os.write_result w "terraform/locals.tf" b1 in
  ∃ v,
    w' = written "terraform/main.tf" b2 (rand_pos w + 50) v
    ∧ faults v = faults w
    ∧ nodes v !! "terraform/locals.tf" = Some (RegularFile (take r1.1 b1))
    ∧ EvWrite "terraform/locals.tf" b1 r1.1 r1.2 ∈ syscalls v.
Proof.
  intros (wm & Hl & Hm)%main_Ok. cbv zeta.
  apply createTerraformLocals_Ok in Hl as (w1 & Hmk1 & _ & ->).
  apply createTerraformMain_Ok in Hm as (w2 & Hmk2 & _ & ->).
  apply makeDir_frame in Hmk1 as (Henv1 & _ & _ & Hf1 & _).
  apply makeDir_frame in Hmk2
    as (_ & _ & _ & Hf2 & _ & Hn2 & evs2 & Hev2 & _).
  cbn [written environ faults nodes syscalls rand_pos] in *.
  assert (getenv (written "terraform/locals.tf"
                    (Bytes (locals_document
                              (secrets_of (rand_src w) (rand_pos w))))
                    (rand_pos w + 50) w1) = getenv w) as ->
    by (unfold getenv; cbn; by rewrite Henv1).
  set (b1 := Bytes (locals_document _)) in *.
  rewrite (write_result_ext w1 w _ b1) in * by congruence.
  exists w2. split; [done|]. split; [congruence|].
  split; [rewrite Hn2 by done; apply lookup_insert_eq|].
  rewrite Hev2. set_solver.
Qed.

(** C8. [createFile] panics with the error whenever [os.Create] returns
    one.  When [os.Create] returns none, [createFile] returns its
    handle: an open handle at offset 0 on the file named by [tfDir],
    a slash and the given name, which is empty at that point, and a
    [Write] through the handle reaches that file.  The program never
    closes a handle: after a run of [main] that returns, the two
    handles it opened are still open and it made no close call. *)
Theorem createFile_contract (fileName : string) (w : World) :
  let name := tfDir +:+ "/" +:+ fileName in
  (∀ file e w1,
     os.Create name w = Ok (file, Some e) w1 →
     createFile fileName w = Panic e w1)
  ∧ (∀ file w1,
       os.Create name w = Ok (file, None) w1 →
       createFile fileName w = Ok file w1
       ∧ ∃ fd,
           file = Some fd
           ∧ fds w1 !! fd
             = Some {| of_name := name; of_offset := 0;
                       of_closed := false |}
           ∧ nodes w1 !! name = Some (RegularFile [])
           ∧ ∀ b,
               ∃ w2,
                 os.File_Write file b w1
                 = Ok (os.write_result w name b) w2
                 ∧ nodes w2 !! name
                   = Some (RegularFile
                             (take (os.write_result w name b).1 b)))
  ∧ (∀ w0 w',
       main Bytes w0 = Ok tt w' →
       ∃ o1 o2 evs,
         fds w' = (fds w0 ++ [o1; o2])%list
         ∧ of_name o1 = "terraform/locals.tf" ∧ of_closed o1 = false
         ∧ of_name o2 = "terraform/main.tf" ∧ of_closed o2 = false
         ∧ syscalls w' = (syscalls w0 ++ evs)%list
         ∧ Forall (fun ev => is_close ev = false) evs).
Proof.
  cbv zeta. split; [|split].
  - intros file e w1 Hc. unfold createFile, bind. by rewrite Hc.
  - intros file w1 Hc. split; [unfold createFile, bind; by rewrite Hc|].
    unfold os.Create in Hc.
    destruct (os.create_result w _); [done|]. injection Hc as <- <-.
    exists (length (fds w)). split; [done|].
    split; [cbn; by rewrite list_lookup_middle|].
    split; [cbn; by rewrite lookup_insert_eq|].
    intros b. eexists. split.
    + rewrite <-(with_rand_pos_id (log _ _)). apply Write_after_Create.
    + cbn. by rewrite lookup_insert_eq.
  - intros w0 w' (wm & Hl & Hm)%main_Ok.
    apply createTerraformLocals_Ok in Hl as (w1 & Hmk1 & _ & ->).
    apply createTerraformMain_Ok in Hm as (w2 & Hmk2 & _ & ->).
    apply makeDir_frame in Hmk1
      as (_ & _ & _ & _ & Hfd1 & _ & evs1 & Hev1 & Hcl1).
    apply makeDir_frame in Hmk2
      as (_ & _ & _ & _ & Hfd2 & _ & evs2 & Hev2 & Hcl2).
    eexists _, _, _. cbn [written fds syscalls] in *.
    rewrite Hfd2, Hfd1, Hev2, Hev1. cbn [app].
    split; [by rewrite <-(assoc_L app)|].
    do 4 (split; [done|]).
    split; [by rewrite <-!(assoc_L app)|].
    rewrite !Forall_app. repeat split; try done; by repeat constructor.
Qed.

(** C9. After a run of [main] that returns, whatever the two files held
    before, each holds exactly the bytes its [Write] took from the
    newly serialized document, and nothing else; when the [Write]
    reports no error, that is the whole serialization. *)
Theorem main_overwrites (w w' : World) :
  main Bytes w = Ok tt w' →
  let b1 :=
    Bytes (locals_document (secrets_of (rand_src w) (rand_pos w))) in
  let b2 :=
    Bytes (resource_document (getenv w "CLUSTER_ID")
                             (getenv w "NAMESPACE")) in
  let r1 := os.write_result w "terraform/locals.tf" b1 in
  let r2 := os.write_result w "terraform/main.tf" b2 in
  EvWrite "terraform/locals.tf" b1 r1.1 r1.2 ∈ syscalls w'
  ∧ EvWrite "terraform/main.tf" b2 r2.1 r2.2 ∈ syscalls w'
  ∧ nodes w' !! "terraform/locals.tf" = Some (RegularFile (take r1.1 b1))
  ∧ nodes w' !! "terraform/main.tf" = Some (RegularFile (take r2.1 b2))
  ∧ (r1.2 = None → nodes w' !! "terraform/locals.tf" = Some (RegularFile b1))
  ∧ (r2.2 = None → nodes w' !! "terraform/main.tf" = Some (RegularFile b2)).
Proof.
  intros (v & -> & Hf & Hloc & Hev)%main_run. cbv zeta.
  cbn [written nodes syscalls].
  rewrite (write_result_ext v w) by done.
  split; [set_solver|]. split; [set_solver|].
  split; [by rewrite lookup_insert_ne|].
  split; [by rewrite lookup_insert_eq|].
  split; intros Hok.
  - by rewrite lookup_insert_ne, Hloc, take_write_result.
  - by rewrite lookup_insert_eq, take_write_result.
Qed.

(** C10. The bytes the program hands to [Write] for [main.tf] are a
    function of what [os.Getenv] gives for CLUSTER_ID and NAMESPACE
    alone: two runs that return, from worlds that agree on these two
    values and on nothing else, hand over the same bytes, and leave
    the same content in [main.tf] when their [Write] reports no
    error. *)
Theorem main_tf_deterministic (w1 w2 w1' w2' : World) :
  getenv w1 "CLUSTER_ID" = getenv w2 "CLUSTER_ID" →
  getenv w1 "NAMESPACE" = getenv w2 "NAMESPACE" →
  main Bytes w1 = Ok tt w1' →
  main Bytes w2 = Ok tt w2' →
  ∃ b n1 e1 n2 e2,
    b = Bytes (resource_document (getenv w1 "CLUSTER_ID")
                                 (getenv w1 "NAMESPACE"))
    ∧ last (syscalls w1') = Some (EvWrite "terraform/main.tf" b n1 e1)
    ∧ last (syscalls w2') = Some (EvWrite "terraform/main.tf" b n2 e2)
    ∧ (e1 = None → e2 = None →
       nodes w1' !! "terraform/main.tf" = Some (RegularFile b)
       ∧ nodes w2' !! "terraform/main.tf" = Some (RegularFile b)).
Proof.
  intros Hc Hn (v1 & -> & Hf1 & _)%main_run (v2 & -> & Hf2 & _)%main_run.
  rewrite <-Hc, <-Hn.
  set (b := Bytes (resource_document _ _)).
  exists b. eexists _, _, _, _. split; [done|].
  split; [apply last_written|]. split; [apply last_written|].
  rewrite (write_result_ext v1 w1), (write_result_ext v2 w2) by done.
  intros He1 He2. cbn [written nodes].
  rewrite !lookup_insert_eq.
  rewrite (write_result_ext v1 w1), (write_result_ext v2 w2) by done.
  by rewrite (take_write_result _ _ _ He1), (take_write_result _ _ _ He2).
Qed.

End ProgramClaims.

(** Runs of [createFile]: without the directory [os.Create] fails and
    [createFile] panics; with it, the stale file is emptied. *)
Example createFile_panics :
  createFile tfLocalsFileName fresh_world
  = Panic ENOENT (log (EvCreate "terraform/locals.tf" (Some ENOENT)) fresh_world).
Proof. reflexivity. Qed.

Example createFile_truncates :
  ∃ w', createFile tfLocalsFileName rerun_world = Ok (Some 0) w'
        ∧ nodes rerun_world !! "terraform/locals.tf" = Some (RegularFile stale)
        ∧ nodes w' !! "terraform/locals.tf" = Some (RegularFile []).
Proof. eexists. split; [reflexivity|]. by split. Qed.

(** After [makeDir] dropped the error of [os.Mkdir], the run goes on and
    panics one call later, on the error of [os.Create]. *)
Example readonly_world_run :
  ∃ w', main sample_Bytes readonly_world = Panic ENOENT w'
        ∧ syscalls w' = [EvStat "terraform" (Some ENOENT);
                         EvMkdir "terraform" 2147484141 (Some EACCES);
                         EvCreate "terraform/locals.tf" (Some ENOENT)].
Proof. eexists. split; [vm_compute; reflexivity|]. done. Qed.

(** The error of [Write] is dropped as well: with a full disk the run
    returns, and [locals.tf] holds the ten bytes that went through, none
    of the old ones. *)
Example disk_full_world_run :
  ∃ w', main sample_Bytes disk_full_world = Ok tt w'
        ∧ nodes w' !! "terraform/locals.tf"
          = Some (RegularFile
                    (take 10 (sample_Bytes
                                (locals_document
                                   (secrets_of (rand_src disk_full_world) 0))))).
Proof. eexists. split; [vm_compute; reflexivity|]. by vm_compute. Qed.

(** A re-run over files of 2000 stale bytes each, no variable set. *)
Lemma main_overwrites_witness :
  ∃ w',
    main sample_Bytes rerun_world = Ok tt w'
    ∧ nodes w' !! "terraform/locals.tf"
      = Some (RegularFile
                (sample_Bytes
                   (locals_document (secrets_of (rand_src rerun_world) 0))))
    ∧ nodes w' !! "terraform/main.tf"
      = Some (RegularFile (sample_Bytes (resource_document "" "")))
    ∧ length (sample_Bytes (resource_document "" "")) < length stale.
Proof.
  assert (∃ w', main sample_Bytes rerun_world = Ok tt w') as [w' Hrun]
    by (eexists; vm_compute; reflexivity).
  exists w'. split; [exact Hrun|].
  destruct (main_overwrites sample_Bytes rerun_world w' Hrun)
    as (_ & _ & _ & _ & Hlocals & Hmain).
  split; [exact (Hlocals eq_refl)|]. split; [exact (Hmain eq_refl)|].
  vm_compute. lia.
Defined.

(** Two first runs with the same two variables, another generator and
    other files on disk. *)
Lemma main_tf_deterministic_witness :
  ∃ w1' w2',
    main sample_Bytes fresh_world = Ok tt w1'
    ∧ main sample_Bytes other_world = Ok tt w2'
    ∧ ∃ b n1 e1 n2 e2,
        b = sample_Bytes (resource_document "prod-1234" "ns-a")
        ∧ last (syscalls w1') = Some (EvWrite "terraform/main.tf" b n1 e1)
        ∧ last (syscalls w2') = Some (EvWrite "terraform/main.tf" b n2 e2)
        ∧ (e1 = None → e2 = None →
           nodes w1' !! "terraform/main.tf" = Some (RegularFile b)
           ∧ nodes w2' !! "terraform/main.tf" = Some (RegularFile b)).
Proof.
  assert (∃ w', main sample_Bytes fresh_world = Ok tt w') as [w1' Hrun1]
    by (eexists; vm_compute; reflexivity).
  assert (∃ w', main sample_Bytes other_world = Ok tt w') as [w2' Hrun2]
    by (eexists; vm_compute; reflexivity).
  exists w1', w2'. split; [exact Hrun1|]. split; [exact Hrun2|].
  exact (main_tf_deterministic sample_Bytes fresh_world other_world w1' w2'
           eq_refl eq_refl Hrun1 Hrun2).
Defined.

(** The content of [locals.tf], unlike that of [main.tf], changes with
    the generator. *)
Example locals_tf_varies :
  secrets_of (rand_src fresh_world) (rand_pos fresh_world)
  ≠ secrets_of (rand_src other_world) (rand_pos other_world).
Proof.
  intros Heq.
  apply (f_equal (fun secretsMap : gmap string cty.Value =>
                    match secretsMap !! "secret-0" with
                    | Some (cty.ObjectVal fieldsMap) =>
                        match fieldsMap !! "fields" with
                        | Some (cty.ObjectVal crnMap) =>
                            bool_decide (is_Some (crnMap !! "field-17"))
                        | _ => false
                        end
                    | _ => false
                    end)) in Heq.
  by vm_compute in Heq.
Qed.

(** * Further properties of the program *)

Section Further.

Context (Bytes : hclwrite.File → list byte).

Lemma makeDir_Panic_inv path w e w' :
  makeDir path w = Panic e w' →
  (os.stat_result w path).2 = Some e ∧ e ≠ ENOENT
  ∧ w' = log (EvStat path (Some e)) w.
Proof.
  rewrite makeDir_unfold. cbv zeta.
  destruct (os.stat_result w path).2 as [e0|]; [|done].
  destruct e0; try done; by intros [= <- <-].
Qed.

Lemma mkdir_result_None w path :
  os.mkdir_result w path = None → os.lookup_node w path = None.
Proof.
  unfold os.mkdir_result. destruct (mkdir_fault _ _); [done|].
  by destruct (os.lookup_node w path).
Qed.

Lemma lookup_node_None w path :
  path ≠ "" → os.lookup_node w path = None → nodes w !! path = None.
Proof.
  intros Hne. unfold os.lookup_node. case_bool_decide; [done|].
  by rewrite bool_decide_false.
Qed.

Lemma makeDir_umask path w w' :
  makeDir path w = Ok tt w' → umask w' = umask w.
Proof.
  rewrite makeDir_unfold. cbv zeta.
  destruct (os.stat_result w path).2 as [e|]; [|by intros [= <-]].
  destruct e; try done.
  by destruct (os.mkdir_result _ path); intros [= <-].
Qed.

(** The two ways [makeDir] returns: no entry changed, or the entry was
    absent and is now a directory, with the permission bits of 0755 that
    the umask does not clear. *)
Lemma makeDir_Ok_nodes path w w' :
  makeDir path w = Ok tt w' →
  nodes w' = nodes w
  ∨ (path ≠ "" ∧ nodes w !! path = None
     ∧ nodes w' = <[path := Dir (N.ldiff 493 (umask w))]> (nodes w)).
Proof.
  rewrite makeDir_unfold. cbv zeta.
  destruct (os.stat_result w path).2 as [e|]; [|intros [= <-]; by left].
  destruct e; try done.
  destruct (os.mkdir_result _ path) eqn:Hm; intros [= <-]; [by left|].
  right. apply mkdir_result_nonempty in Hm as Hne.
  apply mkdir_result_None, lookup_node_None in Hm; done.
Qed.

(** X5. A call of [makeDir] that returns has left an entry that was at
    its path, directory or regular file, as it was; an entry it makes is
    a directory whose permission bits are those of 0755 that the umask
    of the process does not clear (0755 under umask 022, 0700 under 077),
    the [os.ModeDir] bit of the argument not being one of them; and
    nothing is made at the empty path.  The environment, the umask, the
    failure modes, the open files and the generator are as before. *)
Theorem makeDir_effect (path : string) (w w' : World) :
  makeDir path w = Ok tt w' →
  (∀ n, nodes w !! path = Some n → nodes w' !! path = Some n)
  ∧ (nodes w' !! path = nodes w !! path
     ∨ (path ≠ "" ∧ nodes w !! path = None
        ∧ nodes w' !! path = Some (Dir (N.ldiff 493 (umask w)))))
  ∧ environ w' = environ w ∧ umask w' = umask w ∧ faults w' = faults w
  ∧ fds w' = fds w ∧ rand_pos w' = rand_pos w.
Proof.
  intros H.
  pose proof (makeDir_frame _ _ _ H) as (He & _ & Hp & Hf & Hfd & _).
  pose proof (makeDir_umask _ _ _ H) as Hu.
  apply makeDir_Ok_nodes in H as [Heq|(Hne & Hnone & Heq)]; rewrite Heq.
  - split; [done|]. split; [by left|done].
  - split; [intros n Hs; by rewrite Hnone in Hs|].
    split; [right; by rewrite lookup_insert_eq|done].
Qed.

(** ** The calls of a run *)

Lemma ran_refl w : ran 0 w w.
Proof.
  do 3 (split; [done|]). exists []. by rewrite (right_id_L [] app).
Qed.

Lemma ran_trans k1 k2 w1 w2 w3 :
  ran k1 w1 w2 → ran k2 w2 w3 → ran (k1 + k2) w1 w3.
Proof.
  intros (He1 & Hu1 & Ht1 & evs1 & Hs1 & Hl1 & Hp1)
         (He2 & Hu2 & Ht2 & evs2 & Hs2 & Hl2 & Hp2).
  do 2 (split; [congruence|]). split.
  - intros n Hn. by apply Ht2, Ht1.
  - exists (evs1 ++ evs2)%list. rewrite Hs2, Hs1, (assoc_L app).
    split; [done|]. rewrite length_app. split; [lia|].
    by apply Forall_app.
Qed.

Lemma ran_le k k' w w' : (k ≤ k')%nat → ran k w w' → ran k' w w'.
Proof.
  intros Hk (He & Hu & Ht & evs & Hs & Hl & Hp).
  do 3 (split; [done|]). exists evs. split; [done|]. split; [lia|done].
Qed.

Lemma ran_log ev w : program_call ev → ran 1 w (log ev w).
Proof.
  intros Hev. do 3 (split; [done|]). exists [ev].
  split; [done|]. split; [cbn; lia|]. by repeat constructor.
Qed.

Lemma ran_makeDir w w' : makeDir tfDir w = Ok tt w' → ran 2 w w'.
Proof.
  intros H. pose proof (makeDir_frame _ _ _ H) as (He & _).
  pose proof (makeDir_umask _ _ _ H) as Hu.
  pose proof (makeDir_Ok_nodes _ _ _ H) as Ht.
  do 2 (split; [done|]). split.
  { intros n Hsome. destruct Ht as [->|(_ & Hnone & _)]; [done|].
    by rewrite Hnone in Hsome. }
  revert H. rewrite makeDir_unfold. cbv zeta.
  destruct (os.stat_result w tfDir).2 as [e|].
  2:{ intros [= <-]. exists [EvStat tfDir None].
      split; [done|]. split; [cbn; lia|]. by repeat constructor. }
  destruct e; try done.
  intros [= <-].
  destruct (os.mkdir_result _ tfDir);
    (eexists [_; _]; split; [cbn; by rewrite <-(assoc_L app)|];
     split; [cbn; lia|by repeat constructor]).
Qed.

Lemma ran_makeDir_Panic w e w' : makeDir tfDir w = Panic e w' → ran 1 w w'.
Proof. intros (_ & _ & ->)%makeDir_Panic_inv. by apply ran_log. Qed.

Lemma ran_written name b p w1 :
  name = "terraform/locals.tf" ∨ name = "terraform/main.tf" →
  ran 2 w1 (written name b p w1).
Proof.
  intros Hname. do 2 (split; [done|]). cbn [written nodes syscalls]. split.
  - intros n Hn. rewrite lookup_insert_ne; [done|].
    by destruct Hname as [-> | ->].
  - eexists [_; _]. split; [done|]. split; [cbn; lia|].
    constructor; [exact Hname|]. constructor; [exact Hname|]. constructor.
Qed.

Lemma createTerraformLocals_Panic w e w' :
  createTerraformLocals Bytes w = Panic e w' →
  makeDir tfDir w = Panic e w'
  ∨ ∃ w1, makeDir tfDir w = Ok tt w1
          ∧ os.create_result w1 "terraform/locals.tf" = Some e
          ∧ w' = log (EvCreate "terraform/locals.tf" (Some e)) w1.
Proof.
  rewrite createTerraformLocals_unfold.
  destruct (makeDir tfDir w) as [[] w1|e1 w1|]; [|by left|done].
  destruct (os.create_result w1 _) eqn:Hc; [|done].
  intros [= <- <-]. right. eauto.
Qed.

Lemma createTerraformMain_Panic w e w' :
  createTerraformMain Bytes w = Panic e w' →
  makeDir tfDir w = Panic e w'
  ∨ ∃ w1, makeDir tfDir w = Ok tt w1
          ∧ os.create_result w1 "terraform/main.tf" = Some e
          ∧ w' = log (EvCreate "terraform/main.tf" (Some e)) w1.
Proof.
  rewrite createTerraformMain_unfold.
  destruct (makeDir tfDir w) as [[] w1|e1 w1|]; [|by left|done].
  destruct (os.create_result w1 _) eqn:Hc; [|done].
  intros [= <- <-]. right. eauto.
Qed.

Lemma main_Panic w e w' :
  main Bytes w = Panic e w' →
  createTerraformLocals Bytes w = Panic e w'
  ∨ ∃ wm, createTerraformLocals Bytes w = Ok tt wm
          ∧ createTerraformMain Bytes wm = Panic e w'.
Proof.
  unfold main, bind.
  destruct (createTerraformLocals Bytes w) as [[] wm| |]; [eauto|by left|done].
Qed.

Lemma ran_emitter (emitter : M unit) name w w' :
  name = "terraform/locals.tf" ∨ name = "terraform/main.tf" →
  (emitter w = Ok tt w' →
   ∃ w1 b p, makeDir tfDir w = Ok tt w1 ∧ w' = written name b p w1) →
  (∀ e, emitter w = Panic e w' →
        makeDir tfDir w = Panic e w'
        ∨ ∃ w1, makeDir tfDir w = Ok tt w1
                ∧ w' = log (EvCreate name (Some e)) w1) →
  (emitter w = Ok tt w' ∨ ∃ e, emitter w = Panic e w') →
  ran 4 w w'.
Proof.
  intros Hname HOk HPanic [H|[e H]].
  - apply HOk in H as (w1 & b & p & Hmk & ->).
    apply (ran_trans 2 2 _ w1); [by apply ran_makeDir|by apply ran_written].
  - apply HPanic in H as [H|(w1 & Hmk & ->)].
    + apply (ran_le 1); [lia|]. by eapply ran_makeDir_Panic.
    + apply (ran_le (2 + 1)); [lia|].
      apply (ran_trans 2 1 _ w1); [by apply ran_makeDir|].
      by apply ran_log.
Qed.

Lemma ran_createTerraformLocals w w' :
  (createTerraformLocals Bytes w = Ok tt w'
   ∨ ∃ e, createTerraformLocals Bytes w = Panic e w') →
  ran 4 w w'.
Proof.
  apply (ran_emitter _ "terraform/locals.tf"); [by left| |].
  - intros (w1 & Hmk & _ & ->)%createTerraformLocals_Ok. eauto.
  - intros e [H|(w1 & Hmk & _ & ->)]%createTerraformLocals_Panic; eauto.
Qed.

Lemma ran_createTerraformMain w w' :
  (createTerraformMain Bytes w = Ok tt w'
   ∨ ∃ e, createTerraformMain Bytes w = Panic e w') →
  ran 4 w w'.
Proof.
  apply (ran_emitter _ "terraform/main.tf"); [by right| |].
  - intros (w1 & Hmk & _ & ->)%createTerraformMain_Ok. eauto.
  - intros e [H|(w1 & Hmk & _ & ->)]%createTerraformMain_Panic; eauto.
Qed.

(** X4. However a run of [main] ends, by returning or by a panic, the
    process has made at most eight system calls, each of them [os.Stat]
    or [os.Mkdir] of [terraform], or [os.Create] of or [Write] to
    [terraform/locals.tf] or [terraform/main.tf]: it names no other
    path, and it removes, renames and closes nothing.  It has left an
    entry that was at [terraform] as it was, and the environment and the
    umask as they were. *)
Theorem main_calls (w w' : World) :
  (main Bytes w = Ok tt w' ∨ ∃ e, main Bytes w = Panic e w') →
  environ w' = environ w ∧ umask w' = umask w
  ∧ (∀ n, nodes w !! tfDir = Some n → nodes w' !! tfDir = Some n)
  ∧ ∃ evs, syscalls w' = (syscalls w ++ evs)%list
           ∧ (length evs ≤ 8)%nat ∧ Forall program_call evs.
Proof.
  intros H. change (ran 8 w w').
  destruct H as [H|[e H]].
  - apply main_Ok in H as (wm & Hl & Hm).
    apply (ran_trans 4 4 _ wm);
      [apply ran_createTerraformLocals|apply ran_createTerraformMain]; eauto.
  - apply main_Panic in H as [H|(wm & Hl & Hm)].
    + apply (ran_le 4); [lia|]. apply ran_createTerraformLocals; eauto.
    + apply (ran_trans 4 4 _ wm);
        [apply ran_createTerraformLocals|apply ran_createTerraformMain]; eauto.
Qed.

(** X3. [main] panics for two reasons only, and with the error of the
    call that failed as its value: [os.Stat] of [terraform] returned an
    error other than "does not exist", or [os.Create] of one of the two
    files returned an error.  That call is the last one the process
    made. *)
Theorem main_panic_cause (w w' : World) (e : Errno) :
  main Bytes w = Panic e w' →
  (last (syscalls w') = Some (EvStat "terraform" (Some e)) ∧ e ≠ ENOENT)
  ∨ last (syscalls w') = Some (EvCreate "terraform/locals.tf" (Some e))
  ∨ last (syscalls w') = Some (EvCreate "terraform/main.tf" (Some e)).
Proof.
  intros H.
  assert (∀ u u', makeDir tfDir u = Panic e u' →
            last (syscalls u') = Some (EvStat "terraform" (Some e))
            ∧ e ≠ ENOENT) as Hmk.
  { intros u u' (_ & Hne & ->)%makeDir_Panic_inv. split; [|done].
    cbn [log syscalls]. apply last_snoc. }
  apply main_Panic in H as [H|(wm & _ & H)].
  - apply createTerraformLocals_Panic in H as [H|(w1 & _ & _ & ->)].
    + left. by eapply Hmk.
    + right. left. cbn [log syscalls]. apply last_snoc.
  - apply createTerraformMain_Panic in H as [H|(w1 & _ & _ & ->)].
    + left. by eapply Hmk.
    + right. right. cbn [log syscalls]. apply last_snoc.
Qed.

(** same_shape *)
Lemma same_shape_refl w : same_shape w w.
Proof. by repeat split. Qed.

Lemma same_shape_set_write_fault wf w : same_shape w (set_write_fault wf w).
Proof. by repeat split. Qed.

Lemma same_shape_log_l ev w1 w2 : same_shape w1 w2 → same_shape (log ev w1) w2.
Proof. by intros (?&?&?&?). Qed.

Lemma same_shape_log_r ev w1 w2 : same_shape w1 w2 → same_shape w1 (log ev w2).
Proof. by intros (?&?&?&?). Qed.

Lemma same_shape_lookup_node w1 w2 name :
  same_shape w1 w2 →
  node_kind (os.lookup_node w1 name) = node_kind (os.lookup_node w2 name).
Proof.
  intros (_ & _ & _ & Hn). unfold os.lookup_node.
  by repeat case_bool_decide.
Qed.

Lemma same_shape_stat w1 w2 path :
  same_shape w1 w2 → (os.stat_result w1 path).2 = (os.stat_result w2 path).2.
Proof.
  intros Hs. pose proof (same_shape_lookup_node _ _ path Hs) as Hl.
  destruct Hs as (Hst & _). unfold os.stat_result. rewrite Hst.
  destruct (stat_fault _ _); [done|].
  by destruct (os.lookup_node w1 path) as [[]|],
              (os.lookup_node w2 path) as [[]|].
Qed.

Lemma same_shape_parent w1 w2 name :
  same_shape w1 w2 → os.parent_check w1 name = os.parent_check w2 name.
Proof.
  intros Hs. unfold os.parent_check.
  pose proof (same_shape_lookup_node _ _ (os.dirname name) Hs) as Hl.
  by destruct (os.lookup_node w1 _) as [[]|],
              (os.lookup_node w2 _) as [[]|].
Qed.

Lemma same_shape_mkdir w1 w2 path :
  same_shape w1 w2 → os.mkdir_result w1 path = os.mkdir_result w2 path.
Proof.
  intros Hs. pose proof (same_shape_lookup_node _ _ path Hs) as Hl.
  pose proof (same_shape_parent _ _ path Hs) as Hp.
  destruct Hs as (_ & Hmk & _). unfold os.mkdir_result. rewrite Hmk, Hp.
  destruct (mkdir_fault _ _); [done|].
  by destruct (os.lookup_node w1 path) as [[]|],
              (os.lookup_node w2 path) as [[]|].
Qed.

Lemma same_shape_create w1 w2 name :
  same_shape w1 w2 → os.create_result w1 name = os.create_result w2 name.
Proof.
  intros Hs. pose proof (same_shape_lookup_node _ _ name Hs) as Hl.
  pose proof (same_shape_parent _ _ name Hs) as Hp.
  destruct Hs as (_ & _ & Hc & _). unfold os.create_result. rewrite Hc, Hp.
  destruct (create_fault _ _); [done|].
  by destruct (os.lookup_node w1 name) as [[]|],
              (os.lookup_node w2 name) as [[]|].
Qed.

Lemma same_shape_insert name n1 n2 w1 w2 :
  node_kind (Some n1) = node_kind (Some n2) →
  same_shape w1 w2 →
  same_shape (with_nodes (<[name := n1]> (nodes w1)) w1)
             (with_nodes (<[name := n2]> (nodes w2)) w2).
Proof.
  intros Hk (?&?&?&Hn). repeat split; try done.
  intros name'. cbn. destruct (decide (name = name')) as [->|Hne].
  - by rewrite !lookup_insert_eq.
  - by rewrite !lookup_insert_ne.
Qed.

Lemma same_shape_written name b1 b2 p1 p2 w1 w2 :
  same_shape w1 w2 →
  same_shape (written name b1 p1 w1) (written name b2 p2 w2).
Proof.
  intros (?&?&?&Hn). repeat split; try done.
  intros name'. cbn. destruct (decide (name = name')) as [->|Hne].
  - by rewrite !lookup_insert_eq.
  - by rewrite !lookup_insert_ne.
Qed.

Lemma same_run_outcome {A} (r1 r2 : Result A) :
  same_run r1 r2 → outcome r1 = outcome r2.
Proof. destruct r1, r2; cbn; try done. by intros ->. Qed.

Lemma same_run_makeDir path w1 w2 :
  same_shape w1 w2 → same_run (makeDir path w1) (makeDir path w2).
Proof.
  intros Hs. rewrite !makeDir_unfold. cbv zeta.
  rewrite <-(same_shape_stat w1 w2 path Hs).
  destruct (os.stat_result w1 path).2 as [e|];
    [|by apply same_shape_log_l, same_shape_log_r].
  destruct e; try done.
  assert (same_shape (log (EvStat path (Some ENOENT)) w1)
                     (log (EvStat path (Some ENOENT)) w2)) as Hs'
    by by apply same_shape_log_l, same_shape_log_r.
  cbv zeta.
  rewrite <-(same_shape_mkdir (log (EvStat path (Some ENOENT)) w1)
               (log (EvStat path (Some ENOENT)) w2) path Hs').
  cbn [same_run]. apply same_shape_log_l, same_shape_log_r.
  destruct (os.mkdir_result _ path); [done|].
  by apply same_shape_insert.
Qed.


Lemma same_run_createTerraformLocals w1 w2 :
  same_shape w1 w2 →
  same_run (createTerraformLocals Bytes w1) (createTerraformLocals Bytes w2).
Proof.
  intros Hs. rewrite !createTerraformLocals_unfold.
  pose proof (same_run_makeDir tfDir w1 w2 Hs) as Hmk.
  destruct (makeDir tfDir w1) as [[] u1|e1 u1|],
           (makeDir tfDir w2) as [[] u2|e2 u2|]; try done.
  cbn in Hmk. rewrite <-(same_shape_create u1 u2 _ Hmk).
  destruct (os.create_result u1 _); [done|].
  by apply same_shape_written.
Qed.

Lemma same_run_createTerraformMain w1 w2 :
  same_shape w1 w2 →
  same_run (createTerraformMain Bytes w1) (createTerraformMain Bytes w2).
Proof.
  intros Hs. rewrite !createTerraformMain_unfold.
  pose proof (same_run_makeDir tfDir w1 w2 Hs) as Hmk.
  destruct (makeDir tfDir w1) as [[] u1|e1 u1|],
           (makeDir tfDir w2) as [[] u2|e2 u2|]; try done.
  cbn in Hmk. rewrite <-(same_shape_create u1 u2 _ Hmk).
  destruct (os.create_result u1 _); [done|].
  by apply same_shape_written.
Qed.

Lemma same_run_main w1 w2 :
  same_shape w1 w2 → same_run (main Bytes w1) (main Bytes w2).
Proof.
  intros Hs. unfold main, bind.
  pose proof (same_run_createTerraformLocals w1 w2 Hs) as Hl.
  destruct (createTerraformLocals Bytes w1) as [[] u1|e1 u1|],
           (createTerraformLocals Bytes w2) as [[] u2|e2 u2|]; try done.
  by apply same_run_createTerraformMain.
Qed.

(** X2. Whether [main] returns or panics, and the error it panics with,
    do not depend on what [Write] does: the values [Write] returns are
    discarded, so no failure of a write aborts the program or changes
    its exit. *)
Theorem main_outcome_ignores_Write wf (w : World) :
  outcome (main Bytes (set_write_fault wf w)) = outcome (main Bytes w).
Proof.
  symmetry. apply same_run_outcome, same_run_main, same_shape_set_write_fault.
Qed.

Lemma lookup_node_nodes w name :
  name ≠ "." → name ≠ "/" → name ≠ "" →
  os.lookup_node w name = nodes w !! name.
Proof.
  intros ???. unfold os.lookup_node. case_bool_decide; [naive_solver|].
  by rewrite bool_decide_false.
Qed.

(** X6. [makeDir] does not look at what it finds: when [terraform] is a
    regular file, [makeDir] returns as if the directory were there, and
    the program panics one call later, with "not a directory" from
    [os.Create] of [terraform/locals.tf]. *)
Theorem regular_file_in_the_way (w : World) (c : list byte) :
  nodes w !! "terraform" = Some (RegularFile c) →
  stat_fault (faults w) "terraform" = None →
  create_fault (faults w) "terraform/locals.tf" = None →
  nodes w !! "terraform/locals.tf" = None →
  makeDir tfDir w = Ok tt (log (EvStat "terraform" None) w)
  ∧ main Bytes w
    = Panic ENOTDIR
        (log (EvCreate "terraform/locals.tf" (Some ENOTDIR))
           (log (EvStat "terraform" None) w)).
Proof.
  intros Hn Hs Hc Hl.
  assert (makeDir tfDir w = Ok tt (log (EvStat "terraform" None) w)) as Hmk.
  { rewrite makeDir_unfold. cbv zeta. unfold os.stat_result.
    change tfDir with "terraform".
    by rewrite Hs, lookup_node_nodes, Hn. }
  split; [done|].
  unfold main, bind. rewrite createTerraformLocals_unfold, Hmk.
  unfold os.create_result, os.parent_check.
  change (os.dirname "terraform/locals.tf") with "terraform".
  rewrite !lookup_node_nodes by done. cbn [log faults nodes].
  by rewrite Hc, Hl, Hn.
Qed.

(** X7. The body of the resource block has five items, in the order
    the code adds them: the attributes [for_each], [cluster],
    [secret_name] and [secret_namespace], then the block
    [dynamic "fields"]; [secret_name] is the traversal written
    [each.key]. *)
Theorem createTerraformMain_attributes (w w1 : World) :
  makeDir tfDir w = Ok tt w1 →
  os.create_result w1 "terraform/main.tf" = None →
  ∃ w' labels body t_key dynamicBody n err,
    createTerraformMain Bytes w = Ok tt w'
    ∧ last (syscalls w')
      = Some (EvWrite "terraform/main.tf"
                (Bytes [hclwrite.Block "resource" labels body]) n err)
    ∧ (hclwrite.Attributes body).*1
      = ["for_each"; "cluster"; "secret_name"; "secret_namespace"]
    ∧ hclwrite.GetAttribute body "secret_name"
      = Some (hclwrite.ExprTraversal t_key)
    ∧ hclwrite.traversal_text t_key = "each.key"
    ∧ length body = 5
    ∧ body !! 4 = Some (hclwrite.Block "dynamic" ["fields"] dynamicBody).
Proof.
  intros Hmk Hc. eexists _, _, _, _, _, _, _.
  split; [|split].
  - rewrite createTerraformMain_unfold, Hmk, Hc. reflexivity.
  - apply last_written.
  - cbn. by repeat split.
Qed.

Lemma lookup_fields_of src p k v :
  fields_of src p !! k = Some v →
  ∃ j : nat, j < 5 ∧ k = field_name src (p + 2 * j)
             ∧ v = field_crn src (p + 2 * j).
Proof.
  intros H%lookup_put_all_Some. unfold field_pairs in H.
  apply list_elem_of_fmap in H as (j & [= -> ->] & Hj).
  apply elem_of_seq in Hj. exists j. split; [lia|done].
Qed.

(** X8. The loops draw fifty numbers, and every pair of every Fields
    Map comes from two consecutive draws: for entry [i] and field [j],
    draw [10 i + 2 j] gives the name [field-<n>] and the next draw the
    value [crn:v1:bluemix:<m>], a cty string, with [n] and [m] printed
    in decimal and in the range of [rand.Int], from 0 to 2^63 - 1. *)
Theorem field_pairs_format (w : World) :
  ∃ secretsMap w',
    secretsLoop 0 ∅ w = Ok (5%Z, secretsMap) w'
    ∧ rand_pos w' = rand_pos w + 50
    ∧ ∀ name fieldsMap crnMap k v,
        secretsMap !! name = Some (cty.ObjectVal fieldsMap) →
        fieldsMap !! "fields" = Some (cty.ObjectVal crnMap) →
        crnMap !! k = Some v →
        ∃ (i j : nat) (n m : Z),
          i < 5 ∧ j < 5
          ∧ name = "secret-" +:+ pretty (Z.of_nat i)
          ∧ n = (rand_src w (rand_pos w + 10 * i + 2 * j) mod 2 ^ 63)%Z
          ∧ m = (rand_src w (rand_pos w + 10 * i + 2 * j + 1) mod 2 ^ 63)%Z
          ∧ (0 ≤ n < 2 ^ 63)%Z ∧ (0 ≤ m < 2 ^ 63)%Z
          ∧ k = "field-" +:+ pretty n
          ∧ v = cty.StringVal ("crn:v1:bluemix:" +:+ pretty m).
Proof.
  eexists _, _. split; [apply secretsLoop_run|]. split; [done|].
  intros name fieldsMap crnMap k v Hs Hf Hk.
  apply lookup_secrets_of_Some in Hs as (i & Hi & -> & Heq).
  assert (fieldsMap
          = {["fields" :=
                cty.ObjectVal
                  (fields_of (rand_src w) (rand_pos w + 10 * i))]}) as ->
    by congruence.
  rewrite lookup_singleton_eq in Hf.
  assert (crnMap = fields_of (rand_src w) (rand_pos w + 10 * i)) as ->
    by congruence.
  apply lookup_fields_of in Hk as (j & Hj & -> & ->).
  exists i, j. eexists _, _. do 3 (split; [done|]).
  split; [reflexivity|]. split; [reflexivity|].
  split; [by apply Z.mod_pos_bound|]. split; [by apply Z.mod_pos_bound|].
  split; [done|].
  unfold field_crn. by rewrite Nat.add_1_r.
Qed.

Lemma put_all_app {V} (l1 l2 : list (string * V)) m :
  put_all (l1 ++ l2) m = put_all l2 (put_all l1 m).
Proof. apply foldl_app. Qed.

Lemma lookup_put_all_notin {V} (l : list (string * V)) m k :
  k ∉ l.*1 → put_all l m !! k = m !! k.
Proof.
  revert m. induction l as [|[k' v'] l IH]; intros m Hk; [done|].
  change (put_all ((k', v') :: l) m) with (put_all l (<[k':=v']> m)).
  apply not_elem_of_cons in Hk as [Hne Hk]. rewrite IH by done.
  by apply lookup_insert_ne.
Qed.

Lemma lookup_put_all_last {V} (l : list (string * V)) m (j : nat) k v :
  l !! j = Some (k, v) →
  (∀ j' kv, j < j' → l !! j' = Some kv → kv.1 ≠ k) →
  put_all l m !! k = Some v.
Proof.
  intros Hj Hlater.
  rewrite <-(take_drop_middle l j (k, v) Hj), put_all_app.
  change (put_all ((k, v) :: drop (S j) l) (put_all (take j l) m))
    with (put_all (drop (S j) l) (<[k:=v]> (put_all (take j l) m))).
  rewrite lookup_put_all_notin; [apply lookup_insert_eq|].
  intros Hin. apply list_elem_of_fmap in Hin as (kv & -> & Hkv).
  apply list_elem_of_lookup in Hkv as (d & Hd). rewrite lookup_drop in Hd.
  by apply (Hlater (S j + d) kv ltac:(lia) Hd).
Qed.

(** X9. When field names of one entry collide, the pair drawn last is
    the one kept: the name of field [j] of entry [i] is bound to the
    value drawn with it whenever no later field of that entry draws the
    same name. *)
Theorem later_draw_wins (w : World) (i j : nat) :
  i < 5 → j < 5 →
  (∀ j' : nat, j < j' < 5 →
     (rand_src w (rand_pos w + 10 * i + 2 * j') mod 2 ^ 63)%Z
     ≠ (rand_src w (rand_pos w + 10 * i + 2 * j) mod 2 ^ 63)%Z) →
  ∃ secretsMap w' crnMap,
    secretsLoop 0 ∅ w = Ok (5%Z, secretsMap) w'
    ∧ secretsMap !! ("secret-" +:+ pretty (Z.of_nat i))
      = Some (cty.ObjectVal {["fields" := cty.ObjectVal crnMap]})
    ∧ crnMap !! ("field-" +:+ pretty
                   (rand_src w (rand_pos w + 10 * i + 2 * j) mod 2 ^ 63)%Z)
      = Some (cty.StringVal
                ("crn:v1:bluemix:" +:+ pretty
                   (rand_src w (rand_pos w + 10 * i + 2 * j + 1)
                    mod 2 ^ 63)%Z)).
Proof.
  intros Hi Hj Hlater. eexists _, _, _.
  split; [apply secretsLoop_run|]. split; [by apply lookup_secrets_of|].
  unfold fields_of.
  apply (lookup_put_all_last _ _ j).
  - unfold field_pairs. rewrite list_lookup_fmap, lookup_seq_lt by done.
    cbn. unfold field_name, field_crn. by rewrite Nat.add_1_r.
  - intros j' kv Hlt Hkv. unfold field_pairs in Hkv.
    rewrite list_lookup_fmap in Hkv.
    destruct (seq 0 5 !! j') as [x|] eqn:Hx; [|done].
    apply lookup_seq in Hx as [-> Hlt']. injection Hkv as <-.
    cbn. unfold field_name. intros Heq%(inj (String.append "field-")).
    apply (inj pretty) in Heq. by apply (Hlater j').
Qed.

(** X11. A panic undoes nothing: when the Locals Emitter has returned
    and the Resource Emitter panics, [main] panics with the same error
    and [terraform/locals.tf] still holds what the Locals Emitter
    wrote. *)
Theorem no_cleanup_on_abort (w wm w' : World) (e : Errno) :
  createTerraformLocals Bytes w = Ok tt wm →
  createTerraformMain Bytes wm = Panic e w' →
  let b1 := Bytes (locals_document (secrets_of (rand_src w) (rand_pos w))) in
  main Bytes w = Panic e w'
  ∧ nodes w' !! "terraform/locals.tf"
    = Some (RegularFile
              (take (os.write_result w "terraform/locals.tf" b1).1 b1)).
Proof.
  intros Hl Hm. cbv zeta. split; [unfold main, bind; by rewrite Hl|].
  apply createTerraformLocals_Ok in Hl as (v1 & Hmk1 & _ & ->).
  pose proof (makeDir_frame _ _ _ Hmk1) as (_ & _ & _ & Hf1 & _).
  assert (nodes (written "terraform/locals.tf"
                   (Bytes (locals_document (secrets_of (rand_src w) (rand_pos w))))
                   (rand_pos w + 50) v1) !! "terraform/locals.tf"
          = Some (RegularFile
              (take (os.write_result w "terraform/locals.tf"
                       (Bytes (locals_document (secrets_of (rand_src w) (rand_pos w))))).1
                 (Bytes (locals_document (secrets_of (rand_src w) (rand_pos w)))))))
    as Hloc.
  { cbn [written nodes]. rewrite lookup_insert_eq.
    by rewrite (write_result_ext v1 w). }
  apply createTerraformMain_Panic in Hm as [Hm|(v2 & Hmk2 & _ & ->)].
  - apply makeDir_Panic_inv in Hm as (_ & _ & ->). exact Hloc.
  - pose proof (makeDir_frame _ _ _ Hmk2) as (_ & _ & _ & _ & _ & Hn2 & _).
    cbn [log nodes]. by rewrite Hn2.
Qed.

End Further.

(** ** The further properties, run *)

Lemma makeDir_effect_witness :
  ∃ w', makeDir tfDir fresh_world = Ok tt w'
        ∧ nodes w' !! tfDir = Some (Dir 493)
        ∧ environ w' = environ fresh_world ∧ umask w' = 18%N.
Proof.
  assert (∃ w', makeDir tfDir fresh_world = Ok tt w'
                ∧ nodes w' !! tfDir = Some (Dir 493)) as (w' & Hrun & Hnew)
    by (eexists; split; vm_compute; reflexivity).
  exists w'. split; [exact Hrun|].
  destruct (makeDir_effect tfDir fresh_world w' Hrun)
    as (_ & Hdir & Henv & Hu & _).
  split; [|split; [exact Henv|exact Hu]].
  destruct Hdir as [_|(_ & _ & Hdir)]; [exact Hnew|exact Hdir].
Defined.

(** Under umask 077 the directory is made for its owner only. *)
Example makeDir_private :
  ∃ w', makeDir tfDir private_world = Ok tt w'
        ∧ nodes w' = {["terraform" := Dir 448]}.
Proof. eexists. split; [reflexivity|]. by vm_compute. Qed.

(** Nothing is made at the empty path: [os.Stat] and [os.Mkdir] both
    report that it does not exist, and [makeDir] returns. *)
Example makeDir_empty_path :
  makeDir "" fresh_world
  = Ok tt (log (EvMkdir "" 2147484141 (Some ENOENT))
             (log (EvStat "" (Some ENOENT)) fresh_world)).
Proof. reflexivity. Qed.

Lemma main_calls_witness :
  ∃ w' evs,
    main sample_Bytes busy_world = Ok tt w'
    ∧ environ w' = environ busy_world
    ∧ nodes w' !! "terraform" = Some (Dir 448)
    ∧ syscalls w' = evs ∧ (length evs ≤ 8)%nat ∧ Forall program_call evs.
Proof.
  assert (∃ w', main sample_Bytes busy_world = Ok tt w') as [w' Hrun]
    by (eexists; vm_compute; reflexivity).
  destruct (main_calls sample_Bytes busy_world w' (or_introl Hrun))
    as (He & _ & Ht & evs & Hs & Hl & Hp).
  exists w', evs. split; [exact Hrun|]. split; [exact He|].
  split; [apply Ht; reflexivity|].
  split; [exact Hs|]. split; [exact Hl|exact Hp].
Defined.

Lemma main_panic_cause_witness :
  ∃ w',
    main sample_Bytes denied_world = Panic EACCES w'
    ∧ ((last (syscalls w') = Some (EvStat "terraform" (Some EACCES))
        ∧ EACCES ≠ ENOENT)
       ∨ last (syscalls w')
         = Some (EvCreate "terraform/locals.tf" (Some EACCES))
       ∨ last (syscalls w')
         = Some (EvCreate "terraform/main.tf" (Some EACCES))).
Proof.
  assert (∃ w', main sample_Bytes denied_world = Panic EACCES w')
    as [w' Hrun] by (eexists; vm_compute; reflexivity).
  exists w'. split; [exact Hrun|].
  exact (main_panic_cause sample_Bytes denied_world w' EACCES Hrun).
Defined.

Lemma regular_file_in_the_way_witness :
  makeDir tfDir file_in_the_way_world
  = Ok tt (log (EvStat "terraform" None) file_in_the_way_world)
  ∧ main sample_Bytes file_in_the_way_world
    = Panic ENOTDIR
        (log (EvCreate "terraform/locals.tf" (Some ENOTDIR))
           (log (EvStat "terraform" None) file_in_the_way_world)).
Proof.
  apply (regular_file_in_the_way sample_Bytes file_in_the_way_world [x78]);
    reflexivity.
Defined.

Lemma createTerraformMain_attributes_witness :
  ∃ w' labels body t_key dynamicBody n err,
    createTerraformMain sample_Bytes fresh_world = Ok tt w'
    ∧ last (syscalls w')
      = Some (EvWrite "terraform/main.tf"
                (sample_Bytes [hclwrite.Block "resource" labels body]) n err)
    ∧ (hclwrite.Attributes body).*1
      = ["for_each"; "cluster"; "secret_name"; "secret_namespace"]
    ∧ hclwrite.GetAttribute body "secret_name"
      = Some (hclwrite.ExprTraversal t_key)
    ∧ hclwrite.traversal_text t_key = "each.key"
    ∧ length body = 5
    ∧ body !! 4 = Some (hclwrite.Block "dynamic" ["fields"] dynamicBody).
Proof.
  exact (createTerraformMain_attributes sample_Bytes fresh_world _
           eq_refl eq_refl).
Defined.

(** In [collision_world] the first two fields of [secret-0] are both
    named [field-0]; the value of the second, drawn at position 3, is the
    one in the map. *)
Lemma later_draw_wins_witness :
  ∃ secretsMap w' crnMap,
    secretsLoop 0 ∅ collision_world = Ok (5%Z, secretsMap) w'
    ∧ secretsMap !! "secret-0"
      = Some (cty.ObjectVal {["fields" := cty.ObjectVal crnMap]})
    ∧ crnMap !! "field-0" = Some (cty.StringVal "crn:v1:bluemix:3").
Proof.
  apply (later_draw_wins collision_world 0 1); [lia|lia|].
  intros [|[|[|[|[|j']]]]] [Hlt Hlt5]; try lia; by vm_compute.
Defined.

Lemma no_cleanup_on_abort_witness :
  ∃ wm w',
    createTerraformLocals sample_Bytes main_tf_denied_world = Ok tt wm
    ∧ createTerraformMain sample_Bytes wm = Panic EACCES w'
    ∧ main sample_Bytes main_tf_denied_world = Panic EACCES w'
    ∧ nodes w' !! "terraform/locals.tf"
      = Some (RegularFile
                (sample_Bytes
                   (locals_document
                      (secrets_of (rand_src main_tf_denied_world) 0)))).
Proof.
  assert (∃ wm, createTerraformLocals sample_Bytes main_tf_denied_world
                = Ok tt wm) as [wm Hl]
    by (eexists; vm_compute; reflexivity).
  assert (∃ w', main sample_Bytes main_tf_denied_world = Panic EACCES w')
    as [w' Hmain] by (eexists; vm_compute; reflexivity).
  assert (createTerraformMain sample_Bytes wm = Panic EACCES w') as Hm.
  { apply main_Panic in Hmain as [H|(wm' & Hl' & Hm)].
    - rewrite Hl in H. discriminate H.
    - rewrite Hl in Hl'. by injection Hl' as <-. }
  exists wm, w'. split; [exact Hl|]. split; [exact Hm|].
  destruct (no_cleanup_on_abort sample_Bytes main_tf_denied_world wm w'
              EACCES Hl Hm) as [Hmain' Hloc].
  split; [exact Hmain'|]. rewrite Hloc.
  apply (f_equal (λ b, Some (RegularFile b))).
  apply take_ge. vm_compute. reflexivity.
Defined.
